(** * Request builder utility (src/utils/request-builder.ts)

    A shallow embedding of the request factory [createRequest], the four
    decorators and the five convenience builders, followed by the
    properties the specification states about them.

    The module sits between three collaborators that are not part of it:
    the environment configuration ([getConfig]), the static template
    configuration ([TEMPLATE_CONFIG]) and the HTTP test client
    ([request], [.get/.post/...], [.set], [.query], [.send]).  The two
    configurations are inputs of the embedding (record [Env]).  The
    client is modelled by the state of its request object (method, path,
    target, headers under both spellings, query, body) and by what its
    calls do to it: [.get/.post/...] throw a [TypeError] for a target
    that is neither a URL nor a function, [.set] treats header names
    without regard to letter case, [.send] chooses a content type. *)

From Stdlib Require Import String Ascii List ZArith Permutation.
From stdpp Require Import base option list strings gmap.

Open Scope string_scope.

(** ** The fragment of JavaScript the module relies on *)

Module Js.

(** Values that flow through positions typed [any] in the source.
    [object] lists the own enumerable properties of a plain object, in the
    order [Object.keys] reports them; [builtin] is a built-in function,
    reached through the prototype of an object, never part of data. *)
#[local] Unset Elimination Schemes.
Inductive value : Type :=
| undefined
| null
| boolean (b : bool)
| number (z : Z)
| str (s : string)
| array (items : list value)
| object (fields : list (string * value))
| builtin (name : string).
#[local] Set Elimination Schemes.

(** ToBoolean, as used by [!x] and by [c ? a : b]. *)
Definition truthy (v : value) : bool :=
  match v with
  | undefined | null => false
  | boolean b => b
  | number z => negb (z =? 0)%Z
  | str s => negb (String.eqb s "")
  | array _ | object _ | builtin _ => true
  end.

(** ToBoolean on an optional string parameter ([None] is [undefined]). *)
Definition truthy_string (s : option string) : bool :=
  match s with
  | None => false
  | Some s => negb (String.eqb s "")
  end.

(** Template-literal / property-key conversion of an optional string. *)
Definition to_string (s : option string) : string :=
  match s with
  | None => "undefined"
  | Some s => s
  end.

(** An object seen through its own enumerable string-keyed properties,
    listed in the order [Object.keys] reports them (for keys that are
    not array indices this is the order of declaration). *)
Definition props (V : Type) : Type := list (string * V).

Definition Object_keys {V} (o : props V) : list string := o.*1.

Definition Object_entries {V} (o : props V) : list (string * V) := o.

Fixpoint own {V} (o : props V) (k : string) : option V :=
  match o with
  | [] => None
  | (k', v) :: o' => if String.eqb k' k then Some v else own o' k
  end.

(** Every property name a plain object inherits from [Object.prototype]:
    eleven methods, and [__proto__], which reads as the prototype itself,
    an object without enumerable properties.  All of them are truthy. *)
Definition Object_prototype : props value :=
  (map (fun n => (n, builtin n))
     [ "constructor"; "hasOwnProperty"; "isPrototypeOf";
       "propertyIsEnumerable"; "toLocaleString"; "toString"; "valueOf";
       "__defineGetter__"; "__defineSetter__";
       "__lookupGetter__"; "__lookupSetter__" ]
   ++ [ ("__proto__", object []) ])%list.

(** [o[k]] on a plain object: own property first, then the prototype. *)
Definition get (o : props value) (k : string) : value :=
  match own o k with
  | Some v => v
  | None => default undefined (own Object_prototype k)
  end.

(** [String.prototype.toLowerCase], a character being a code unit below
    256: the letters A-Z and the capital letters of Latin-1 (192-222 but
    the multiplication sign 215) move up by 32. *)
Definition lower (c : ascii) : ascii :=
  let n := nat_of_ascii c in
  if ((65 <=? n) && (n <=? 90)
      || (192 <=? n) && (n <=? 222) && negb (n =? 215))%nat
  then ascii_of_nat (n + 32)
  else c.

Fixpoint toLowerCase (s : string) : string :=
  match s with
  | EmptyString => EmptyString
  | String c s' => String (lower c) (toLowerCase s')
  end.

(** [Array.prototype.join] on an array of strings. *)
Definition join (sep : string) (xs : list string) : string :=
  String.concat sep xs.

(** [e1 contains e2]: [e2] occurs as a contiguous part of [e1]. *)
Definition includes (s part : string) : Prop :=
  exists pre post, s = pre +:+ part +:+ post.

End Js.

(** ** Completions: a call returns a value or throws

    The factory throws plain [Error] objects with a message; they are what
    the specification calls a configuration error.  [TypeError] is what
    the runtime throws when the client calls a method its target lacks. *)

Inductive JsError : Type :=
| Error (message : string)
| TypeError.

Inductive Completion (A : Type) : Type :=
| Return (a : A)
| Throw (e : JsError).
Arguments Return {A} a.
Arguments Throw {A} e.

(** ** The collaborators of the module *)

(** What [getConfig()] returns, as far as this module reads it:
    [(config as any).services], absent ([None]) or a plain object from
    service identifier to base URL. *)
Record Config : Type := { services : option (Js.props Js.value) }.

(** The imports of the module: the environment configuration and
    [TEMPLATE_CONFIG.services], the static registry of service names. *)
Record Env : Type := {
  getConfig : Config;
  TEMPLATE_CONFIG_services : Js.props string
}.

(** ** The HTTP test client *)

Inductive Method : Type := GET | POST | PUT | PATCH | DELETE.

(** [request(app)]: an agent bound to one target. *)
Record Agent : Type := { agent_app : Js.value }.

Definition request (app : Js.value) : Agent := {| agent_app := app |}.

(** A request under construction (the client's [Test] object).  The
    client keeps every header twice: [header] is keyed by the field name
    as it was given to [.set] and is what goes on the wire, [_header] is
    keyed by the lower-cased name and is what [req.get(field)] reads. *)
Record Test : Type := {
  method : Method;
  url : string;
  app : Js.value;
  header : gmap string string;
  _header : gmap string string;
  qs : gmap string Js.value;
  data : Js.value
}.

(** [req.get(field)]: header names are looked up without regard to case. *)
Definition get_header (t : Test) (field : string) : option string :=
  _header t !! Js.toLowerCase field.

(** [Test] objects are mutable and handled by reference: the store holds
    every object allocated so far, a reference is its index. *)
Abbreviation ref := nat (only parsing).
Abbreviation Store := (list Test) (only parsing).

(** Computations that read and update the store and may throw. *)
Definition M (A : Type) : Type := Store -> Completion A * Store.

Definition ret {A} (a : A) : M A := fun st => (Return a, st).

Definition bind {A B} (m : M A) (k : A -> M B) : M B :=
  fun st =>
    match m st with
    | (Return a, st') => k a st'
    | (Throw e, st') => (Throw e, st')
    end.

Definition lift {A} (c : Completion A) : M A := fun st => (c, st).

#[local] Instance M_ret : MRet M := @ret.
#[local] Instance M_bind : MBind M := fun A B k m => bind m k.

(** [this._header[field.toLowerCase()] = val; this.header[field] = val]. *)
Definition with_header (field val : string) (t : Test) : Test :=
  {| method := method t; url := url t; app := app t;
     header := <[field := val]> (header t);
     _header := <[Js.toLowerCase field := val]> (_header t);
     qs := qs t; data := data t |}.

(** [this.qs = {...this.qs, ...params}]. *)
Definition with_query (params : Js.props Js.value) (t : Test) : Test :=
  {| method := method t; url := url t; app := app t; header := header t;
     _header := _header t;
     qs := foldl (fun q kv => <[kv.1 := kv.2]> q) (qs t) params;
     data := data t |}.

Definition with_data (body : Js.value) (t : Test) : Test :=
  {| method := method t; url := url t; app := app t; header := header t;
     _header := _header t; qs := qs t; data := body |}.

(** [agent.get(path)], [agent.post(path)], ...: a new [Test], with no
    header, no query parameter and no body yet. *)
Definition new_Test (m : Method) (a : Agent) (path : string) : Test :=
  {| method := m; url := path; app := agent_app a;
     header := ∅; _header := ∅; qs := ∅; data := Js.undefined |}.

(** The targets the client can address: a URL string, or a function, which
    it wraps into a server.  For anything else the constructor of [Test]
    calls [app.address()], which the target does not have. *)
Definition addressable (app : Js.value) : bool :=
  match app with
  | Js.str _ | Js.builtin _ => true
  | _ => false
  end.

Definition agent_call (m : Method) (a : Agent) (path : string) : M ref :=
  fun st =>
    if addressable (agent_app a)
    then (Return (List.length st), (st ++ [ new_Test m a path ])%list)
    else (Throw TypeError, st).

(** [req.set(field, val)] and [req.query(params)] update the object in
    place and return [this]. *)
Definition set (req : ref) (field val : string) : M ref :=
  fun st => (Return req, alter (with_header field val) req st).

Definition query (req : ref) (params : Js.props Js.value) : M ref :=
  fun st => (Return req, alter (with_query params) req st).

(** The [Content-Type] that [.send(body)] gives a request that has none:
    JSON for an object or an array, a URL-encoded form for a string,
    nothing for any other body. *)
Definition default_type (body : Js.value) : option string :=
  match body with
  | Js.array _ | Js.object _ => Some "application/json"
  | Js.str _ => Some "application/x-www-form-urlencoded"
  | _ => None
  end.

(** [req.send(body)] on a request: the body becomes its data (for an
    object or an array, a copy with the same properties) and, unless a
    content type is set already, the default one for the body is set.
    The builders send once, on the request they have just created; where
    the client would merge [body] into an earlier body, the model keeps
    [body].  Bodies the client refuses or streams (BigInt, buffers, form
    data) are not among the values of [Js.value]. *)
Definition with_send (body : Js.value) (t : Test) : Test :=
  let type := _header t !! "content-type" in
  match default_type body with
  | Some t' =>
      if negb (Js.truthy_string type)
      then with_header "Content-Type" t' (with_data body t)
      else with_data body t
  | None => with_data body t
  end.

Definition send (req : ref) (body : Js.value) : M ref :=
  fun st => (Return req, alter (with_send body) req st).

(** ** The module itself *)

Definition quote : string := String (ascii_of_nat 34) EmptyString.
Definition nl : string := String (ascii_of_nat 10) EmptyString.

Definition services_not_configured : string :=
  "Services not configured in environment file" +:+ nl +:+
  "Ensure your environment config includes the services object".

Definition service_not_configured (serviceName : option string)
    (availableServices : string) : string :=
  "Service " +:+ quote +:+ Js.to_string serviceName +:+ quote +:+
  " not configured in environment" +:+ nl +:+
  "Available services: " +:+ availableServices +:+ nl +:+
  "Check your .env file for the corresponding URL variable".

Definition createRequest (E : Env) (serviceName : option string)
    : Completion Agent :=
  let config := getConfig E in
  match services config with
  | None => Throw (Error services_not_configured)
  | Some services =>
      let serviceName :=
        if negb (Js.truthy_string serviceName) then
          let firstServiceKey :=
            head (Js.Object_keys (TEMPLATE_CONFIG_services E)) in
          firstServiceKey ≫= Js.own (TEMPLATE_CONFIG_services E)
        else serviceName in
      if negb (Js.truthy (Js.get services (Js.to_string serviceName))) then
        let availableServices := Js.join ", " (Js.Object_keys services) in
        Throw (Error (service_not_configured serviceName availableServices))
      else Return (request (Js.get services (Js.to_string serviceName)))
  end.

Definition withAuth (req : ref) (token : string) : M ref :=
  set req "Authorization" ("Bearer " +:+ token).

Definition withApiKey (req : ref) (apiKey : string)
    (headerName : option string) : M ref :=
  set req (default "x-api-key" headerName) apiKey.

Definition withHeaders (req : ref) (headers : Js.props string) : M ref :=
  fun st =>
    let st' :=
      foldl (fun s kv => (set req kv.1 kv.2 s).2) st
            (Js.Object_entries headers) in
    (Return req, st').

Definition withQueryParams (req : ref) (params : Js.props Js.value) : M ref :=
  query req params.

Definition buildGetRequest (E : Env) (path : string)
    (token serviceName : option string) : M ref :=
  agent ← lift (createRequest E serviceName);
  req ← agent_call GET agent path;
  if Js.truthy_string token then withAuth req (Js.to_string token)
  else ret req.

Definition buildPostRequest (E : Env) (path : string) (body : Js.value)
    (token serviceName : option string) : M ref :=
  agent ← lift (createRequest E serviceName);
  posted ← agent_call POST agent path;
  req ← send posted body;
  if Js.truthy_string token then withAuth req (Js.to_string token)
  else ret req.

Definition buildPutRequest (E : Env) (path : string) (body : Js.value)
    (token serviceName : option string) : M ref :=
  agent ← lift (createRequest E serviceName);
  put ← agent_call PUT agent path;
  req ← send put body;
  if Js.truthy_string token then withAuth req (Js.to_string token)
  else ret req.

Definition buildPatchRequest (E : Env) (path : string) (body : Js.value)
    (token serviceName : option string) : M ref :=
  agent ← lift (createRequest E serviceName);
  patched ← agent_call PATCH agent path;
  req ← send patched body;
  if Js.truthy_string token then withAuth req (Js.to_string token)
  else ret req.

Definition buildDeleteRequest (E : Env) (path : string)
    (token serviceName : option string) : M ref :=
  agent ← lift (createRequest E serviceName);
  req ← agent_call DELETE agent path;
  if Js.truthy_string token then withAuth req (Js.to_string token)
  else ret req.

(** ** Vocabulary of the statements *)

(** The service identifier the factory looks up once the default has been
    applied (lines 44-47 of the source). *)
Definition resolved (E : Env) (serviceName : option string) : option string :=
  if Js.truthy_string serviceName then serviceName
  else snd <$> head (TEMPLATE_CONFIG_services E).

(** The header object after a batch of [.set] calls made in order. *)
Definition set_all (headers : Js.props string) (h : gmap string string)
    : gmap string string :=
  foldl (fun m kv => <[kv.1 := kv.2]> m) h headers.

Definition with_headers (headers : Js.props string) (t : Test) : Test :=
  foldl (fun t kv => with_header kv.1 kv.2 t) t headers.

(** A decorator works in place on [req]: it returns the very reference it
    was given, allocates nothing, leaves every other object of the store
    alone, and on [req] keeps method, path, target and body. *)
Definition in_place (decorator : M ref) (req : ref) : Prop :=
  forall st : Store,
  exists st' : Store,
    decorator st = (Return req, st') /\
    List.length st' = List.length st /\
    (forall r : ref, r <> req -> st' !! r = st !! r) /\
    (forall t : Test, st !! req = Some t ->
       exists t' : Test,
         st' !! req = Some t' /\
         method t' = method t /\ url t' = url t /\
         app t' = app t /\ data t' = data t).

(** The headers of a mapping under their lower-cased names. *)
Definition lower_keys (headers : Js.props string) : Js.props string :=
  prod_map Js.toLowerCase id <$> headers.

(** The header that [.send(body)] adds to a request without headers. *)
Definition content_type (body : Js.value) : Js.props string :=
  match default_type body with
  | Some t => [ ("Content-Type", t) ]
  | None => []
  end.

(** The header [withAuth] sets for a token. *)
Definition bearer (token : string) : Js.props string :=
  [ ("Authorization", "Bearer " +:+ token) ].

(** A request with the given method, path, target and body, no query
    parameter, and exactly the listed headers, each one recorded under
    its name and under its lower-cased name. *)
Definition built (m : Method) (target : Js.value) (path : string)
    (body : Js.value) (headers : Js.props string) : Test :=
  {| method := m; url := path; app := target;
     header := set_all headers ∅;
     _header := set_all (lower_keys headers) ∅;
     qs := ∅; data := body |}.

(** A computation that, when it returns, has added exactly one object at
    the end of the store and returns the reference to it, and, when it
    throws, has left the store as it found it. *)
Definition allocates_one (builder : M ref) : Prop :=
  forall st : Store,
    match builder st with
    | (Return r, st') =>
        r = List.length st /\ exists t : Test, st' = (st ++ [ t ])%list
    | (Throw _, st') => st' = st
    end.

(** A builder call that returns a new request with the given method,
    path, target and body. *)
Definition builds (builder : M ref) (m : Method) (path : string)
    (target body : Js.value) : Prop :=
  forall st : Store,
  exists t : Test,
    builder st = (Return (List.length st), (st ++ [ t ])%list) /\
    method t = m /\ url t = path /\ app t = target /\ data t = body.

(** The query object after [.query(params)]. *)
Definition set_params (params : Js.props Js.value)
    (q : gmap string Js.value) : gmap string Js.value :=
  foldl (fun q kv => <[kv.1 := kv.2]> q) q params.

(** ** Sample environments *)

Definition sample_registry : Js.props string :=
  [ ("MAIN", "MAIN"); ("PAYMENTS", "PAYMENTS") ].

Definition sample_services : Js.props Js.value :=
  [ ("MAIN", Js.str "http://localhost:3000");
    ("PAYMENTS", Js.str "http://localhost:3001") ].

Definition sample_env : Env :=
  {| getConfig := {| services := Some sample_services |};
     TEMPLATE_CONFIG_services := sample_registry |}.

(** An environment whose only service has an empty base URL, and one whose
    services mapping is keyed by the empty identifier. *)
Definition empty_url_env : Env :=
  {| getConfig := {| services := Some [ ("MAIN", Js.str "") ] |};
     TEMPLATE_CONFIG_services := sample_registry |}.

Definition empty_name_env : Env :=
  {| getConfig :=
       {| services := Some [ ("", Js.str "http://localhost:3000") ] |};
     TEMPLATE_CONFIG_services := sample_registry |}.

Definition no_services_env : Env :=
  {| getConfig := {| services := None |};
     TEMPLATE_CONFIG_services := sample_registry |}.

(** A store holding one request, [GET /users] on the sample main service. *)
Definition sample_Test : Test :=
  new_Test GET (request (Js.str "http://localhost:3000")) "/users".

Definition sample_store : Store := [ sample_Test ].

Definition sample_agent : Agent := request (Js.str "http://localhost:3000").

Definition sample_body : Js.value := Js.object [ ("name", Js.str "a") ].

Definition billing_message : string :=
  service_not_configured (Some "BILLING")
    (Js.join ", " (Js.Object_keys sample_services)).

(** A registry whose first entry is named by the empty string. *)
Definition empty_default_env : Env :=
  {| getConfig := {| services := Some sample_services |};
     TEMPLATE_CONFIG_services := [ ("NONE", ""); ("MAIN", "MAIN") ] |}.

(** A registry without any service, and an environment that configures
    only the second service of the sample registry. *)
Definition empty_registry_env : Env :=
  {| getConfig := {| services := Some sample_services |};
     TEMPLATE_CONFIG_services := [] |}.

Definition payments_only : Js.props Js.value :=
  [ ("PAYMENTS", Js.str "http://localhost:3001") ].

Definition payments_only_env : Env :=
  {| getConfig := {| services := Some payments_only |};
     TEMPLATE_CONFIG_services := sample_registry |}.

(** * Properties *)

(** ** Strings and property lookup *)

Section Strings.

Lemma append_cons (c : ascii) (s t : string) :
  String c s +:+ t = String c (s +:+ t).
Proof. reflexivity. Qed.

Lemma append_nil_r (s : string) : s +:+ "" = s.
Proof.
  induction s as [|c s IH]; [reflexivity | by rewrite append_cons, IH].
Qed.

Lemma append_assoc (a b c : string) : (a +:+ b) +:+ c = a +:+ (b +:+ c).
Proof.
  induction a as [|x a IH]; [reflexivity | by rewrite !append_cons, IH].
Qed.

Lemma length_append (a b : string) :
  String.length (a +:+ b) = String.length a + String.length b.
Proof. induction a as [|x a IH]; [reflexivity | simpl; congruence]. Qed.

Lemma includes_refl (s : string) : Js.includes s s.
Proof. exists "", "". symmetry. apply (append_nil_r s). Qed.

Lemma includes_append_l (pre s part : string) :
  Js.includes s part -> Js.includes (pre +:+ s) part.
Proof.
  intros (p & q & ->). exists (pre +:+ p), q. by rewrite append_assoc.
Qed.

Lemma includes_append_r (s post part : string) :
  Js.includes s part -> Js.includes (s +:+ post) part.
Proof.
  intros (p & q & ->). exists p, (q +:+ post).
  by rewrite !append_assoc.
Qed.

(** Every element of an array occurs in the result of [join]. *)
Lemma join_includes (sep : string) (xs : list string) (x : string) :
  In x xs -> Js.includes (Js.join sep xs) x.
Proof.
  unfold Js.join. induction xs as [|y ys IH]; [intros []|].
  intros [-> | Hin].
  - destruct ys as [|z ys]; simpl; [apply includes_refl|].
    apply includes_append_r, includes_refl.
  - destruct ys as [|z ys]; [destruct Hin|].
    change (String.concat sep (y :: z :: ys))
      with (y +:+ sep +:+ String.concat sep (z :: ys)).
    apply includes_append_l, includes_append_l, IH, Hin.
Qed.

End Strings.

Section Lookup.
Context {V : Type}.

Lemma own_Some_In (o : Js.props V) (k : string) (v : V) :
  Js.own o k = Some v -> In k (Js.Object_keys o).
Proof.
  induction o as [|[k' v'] o IH]; simpl; [discriminate|].
  destruct (String.eqb_spec k' k) as [-> | _]; [by left | right; auto].
Qed.

Lemma own_None (o : Js.props V) (k : string) :
  ~ In k (Js.Object_keys o) -> Js.own o k = None.
Proof.
  induction o as [|[k' v'] o IH]; simpl; [reflexivity|].
  intros Hn. destruct (String.eqb_spec k' k) as [-> | _].
  - exfalso. apply Hn. by left.
  - apply IH. intros Hin. apply Hn. by right.
Qed.

(** Reading the first key of an object yields the value declared first. *)
Lemma own_first_key (o : Js.props V) :
  head (Js.Object_keys o) ≫= Js.own o = snd <$> head o.
Proof.
  destruct o as [|[k v] o]; simpl; [reflexivity|].
  by rewrite String.eqb_refl.
Qed.

End Lookup.

Lemma truthy_str (u : string) : u <> "" -> Js.truthy (Js.str u) = true.
Proof. intros Hu. simpl. by destruct (String.eqb_spec u ""). Qed.

Lemma truthy_string_Some (s : string) :
  s <> "" -> Js.truthy_string (Some s) = true.
Proof. intros Hs. simpl. by destruct (String.eqb_spec s ""). Qed.

(** ** The request factory *)

(** The factory, read as: default the identifier, then look it up. *)
Lemma createRequest_unfold (E : Env) (serviceName : option string)
    (svcs : Js.props Js.value) :
  services (getConfig E) = Some svcs ->
  createRequest E serviceName =
    let key := Js.to_string (resolved E serviceName) in
    if Js.truthy (Js.get svcs key) then Return (request (Js.get svcs key))
    else Throw (Error (service_not_configured (resolved E serviceName)
                         (Js.join ", " (Js.Object_keys svcs)))).
Proof.
  intros Hs. unfold createRequest, resolved. rewrite Hs, own_first_key.
  destruct (Js.truthy_string serviceName); simpl;
    by destruct (Js.truthy _).
Qed.

Example createRequest_sample :
  createRequest sample_env (Some "PAYMENTS")
  = Return (request (Js.str "http://localhost:3001")).
Proof. reflexivity. Qed.

Example createRequest_sample_default :
  createRequest sample_env None
  = Return (request (Js.str "http://localhost:3000")).
Proof. reflexivity. Qed.

(** C1, as stated, fails: an identifier that is present with an empty base
    URL is reported as not configured, and the empty identifier, although
    present, is replaced by the registry default before the lookup. *)
Lemma createRequest_present_but_rejected :
  (Js.own [ ("MAIN", Js.str "") ] "MAIN" = Some (Js.str "") /\
   createRequest empty_url_env (Some "MAIN")
   = Throw (Error (service_not_configured (Some "MAIN") "MAIN")) /\
   createRequest empty_url_env (Some "MAIN") <> Return (request (Js.str "")))
  /\
  (Js.own [ ("", Js.str "http://localhost:3000") ] ""
   = Some (Js.str "http://localhost:3000") /\
   createRequest empty_name_env (Some "")
   = Throw (Error (service_not_configured (Some "MAIN") "")) /\
   createRequest empty_name_env (Some "")
   <> Return (request (Js.str "http://localhost:3000"))).
Proof. repeat split; try reflexivity; discriminate. Qed.

(** C1 (amended): for every non-empty service identifier [s] that the
    services mapping holds with a non-empty base URL [u], [createRequest(s)]
    returns a request builder whose target is exactly [u]. *)
Theorem createRequest_configured (E : Env) (svcs : Js.props Js.value)
    (s u : string) :
  services (getConfig E) = Some svcs ->
  Js.own svcs s = Some (Js.str u) ->
  s <> "" -> u <> "" ->
  In s (Js.Object_keys svcs) /\
  createRequest E (Some s) = Return (request (Js.str u)) /\
  agent_app (request (Js.str u)) = Js.str u.
Proof.
  intros Hs Hown Hne Hu. split; [by eapply own_Some_In|]. split; [|done].
  rewrite (createRequest_unfold E _ svcs Hs). unfold resolved.
  rewrite truthy_string_Some by done. cbv zeta. unfold Js.to_string, Js.get.
  rewrite Hown. by rewrite truthy_str.
Qed.

Lemma createRequest_configured_witness :
  In "PAYMENTS" (Js.Object_keys sample_services) /\
  createRequest sample_env (Some "PAYMENTS")
  = Return (request (Js.str "http://localhost:3001")) /\
  agent_app (request (Js.str "http://localhost:3001"))
  = Js.str "http://localhost:3001".
Proof.
  apply (createRequest_configured sample_env sample_services "PAYMENTS"
           "http://localhost:3001");
    [reflexivity | reflexivity | discriminate | discriminate].
Defined.

(** C2: when the environment configuration has no services mapping,
    [createRequest] throws whatever identifier is passed (or none), and
    every convenience builder stops there, leaving the store as it was:
    no request builder is produced. *)
Theorem createRequest_without_services (E : Env)
    (serviceName : option string) :
  services (getConfig E) = None ->
  createRequest E serviceName = Throw (Error services_not_configured) /\
  forall path body token st,
    buildGetRequest E path token serviceName st
    = (Throw (Error services_not_configured), st) /\
    buildPostRequest E path body token serviceName st
    = (Throw (Error services_not_configured), st) /\
    buildPutRequest E path body token serviceName st
    = (Throw (Error services_not_configured), st) /\
    buildPatchRequest E path body token serviceName st
    = (Throw (Error services_not_configured), st) /\
    buildDeleteRequest E path token serviceName st
    = (Throw (Error services_not_configured), st).
Proof.
  intros Hs.
  assert (Hc : createRequest E serviceName
               = Throw (Error services_not_configured))
    by (unfold createRequest; by rewrite Hs).
  split; [exact Hc|]. intros path body token st.
  unfold buildGetRequest, buildPostRequest, buildPutRequest,
    buildPatchRequest, buildDeleteRequest, mbind, M_bind, bind, lift.
  by rewrite Hc.
Qed.

Lemma createRequest_without_services_witness :
  createRequest no_services_env (Some "PAYMENTS")
  = Throw (Error services_not_configured).
Proof.
  apply (createRequest_without_services no_services_env (Some "PAYMENTS")).
  reflexivity.
Defined.

(** C3, as stated, fails: the empty identifier is absent from the sample
    services mapping, yet [createRequest("")] throws nothing; it falls
    back to the registry default and returns a builder. *)
Lemma createRequest_absent_but_accepted :
  ~ In "" (Js.Object_keys sample_services) /\
  createRequest sample_env (Some "")
  = Return (request (Js.str "http://localhost:3000")).
Proof.
  split; [|reflexivity].
  simpl. intros [H | [H | []]]; discriminate H.
Qed.

(** The lookup [services[serviceName]] also sees what a plain object
    inherits: such a name is absent from the mapping and still accepted. *)
Example createRequest_inherited_name :
  createRequest sample_env (Some "constructor")
  = Return (request (Js.builtin "constructor")).
Proof. reflexivity. Qed.

(** C3 (amended): for every non-empty service identifier [s] that is
    neither a key of the services mapping nor the name of a property the
    mapping inherits from [Object.prototype], [createRequest(s)] throws an
    error whose message names [s], carries the keys of the mapping joined
    by a comma and a space, and so contains every identifier present. *)
Theorem createRequest_unknown_service (E : Env)
    (svcs : Js.props Js.value) (s : string) :
  services (getConfig E) = Some svcs ->
  s <> "" ->
  ~ In s (Js.Object_keys svcs) ->
  ~ In s (Js.Object_keys Js.Object_prototype) ->
  let message :=
    service_not_configured (Some s) (Js.join ", " (Js.Object_keys svcs)) in
  createRequest E (Some s) = Throw (Error message) /\
  forall k, In k (Js.Object_keys svcs) -> Js.includes message k.
Proof.
  intros Hs Hne Hown Hproto message. split.
  - rewrite (createRequest_unfold E _ svcs Hs). unfold resolved.
    rewrite truthy_string_Some by done. cbv zeta.
    unfold Js.to_string, Js.get.
    by rewrite (own_None svcs s Hown), (own_None _ s Hproto).
  - intros k Hk. unfold message, service_not_configured.
    do 7 apply includes_append_l.
    apply includes_append_r, join_includes, Hk.
Qed.

Lemma createRequest_unknown_service_witness :
  createRequest sample_env (Some "BILLING") = Throw (Error billing_message) /\
  forall k, In k (Js.Object_keys sample_services) ->
            Js.includes billing_message k.
Proof.
  apply (createRequest_unknown_service sample_env sample_services "BILLING");
    [ reflexivity | discriminate | | ];
    simpl; intros H; repeat destruct H as [H | H]; discriminate || done.
Defined.

Example createRequest_unknown_service_message :
  createRequest sample_env (Some "BILLING")
  = Throw (Error (service_not_configured (Some "BILLING") "MAIN, PAYMENTS")).
Proof. reflexivity. Qed.

(** Defaulting is idempotent: the registry default, passed explicitly, is
    looked up as itself or, if it is empty, defaulted once more to itself. *)
Lemma resolved_default (E : Env) :
  resolved E (snd <$> head (TEMPLATE_CONFIG_services E)) = resolved E None.
Proof.
  unfold resolved.
  by destruct (Js.truthy_string (snd <$> head (TEMPLATE_CONFIG_services E))).
Qed.

(** C4: calling [createRequest] with no argument gives the same outcome,
    the same target or the same error, as calling it with the value of the
    first entry of the service registry. *)
Theorem createRequest_default_service (E : Env) :
  createRequest E None
  = createRequest E (snd <$> head (TEMPLATE_CONFIG_services E)).
Proof.
  destruct (services (getConfig E)) as [svcs|] eqn:Hs.
  - rewrite (createRequest_unfold E None svcs Hs).
    rewrite (createRequest_unfold E (snd <$> head _) svcs Hs).
    by rewrite resolved_default.
  - unfold createRequest. by rewrite Hs.
Qed.

Example createRequest_default_service_sample :
  createRequest sample_env None = createRequest sample_env (Some "MAIN").
Proof. reflexivity. Qed.

Lemma length_service_not_configured (d : option string) (a : string) :
  String.length (service_not_configured d a)
  = 117 + String.length (Js.to_string d) + String.length a.
Proof.
  unfold service_not_configured, quote, nl. rewrite !length_append.
  simpl. lia.
Qed.

(** The missing-service message determines whether it is about the empty
    identifier. *)
Lemma service_not_configured_empty (d : option string) (a : string) :
  service_not_configured d a = service_not_configured (Some "") a ->
  d = Some "".
Proof.
  intros Heq. apply (f_equal String.length) in Heq.
  rewrite !length_service_not_configured in Heq.
  destruct d as [[|c d]|]; simpl in Heq; [reflexivity | lia | lia].
Qed.

(** C10, as stated, fails in its last clause: when the first registry
    entry is itself the empty name, the empty identifier is replaced by
    the empty identifier, reaches the lookup, and the missing-service
    error is raised for the empty key. *)
Lemma createRequest_empty_default :
  snd <$> head (TEMPLATE_CONFIG_services empty_default_env) = Some "" /\
  createRequest empty_default_env (Some "")
  = Throw (Error (service_not_configured (Some "")
                    (Js.join ", " (Js.Object_keys sample_services)))).
Proof. split; reflexivity. Qed.

(** C10 (amended): the empty string as service identifier is handled
    exactly as a missing argument: it is replaced by the value of the
    first registry entry and the lookup is made with that value, whose
    outcome is the outcome of the call; unless that first registry value
    is itself the empty string, no missing-service error is raised for
    the empty key. *)
Theorem createRequest_empty_identifier (E : Env) :
  createRequest E (Some "") = createRequest E None /\
  createRequest E (Some "")
  = createRequest E (snd <$> head (TEMPLATE_CONFIG_services E)) /\
  (forall svcs,
     services (getConfig E) = Some svcs ->
     createRequest E (Some "")
     = (if Js.truthy
             (Js.get svcs
                (Js.to_string (snd <$> head (TEMPLATE_CONFIG_services E))))
        then Return
               (request
                  (Js.get svcs
                     (Js.to_string
                        (snd <$> head (TEMPLATE_CONFIG_services E)))))
        else Throw
               (Error
                  (service_not_configured
                     (snd <$> head (TEMPLATE_CONFIG_services E))
                     (Js.join ", " (Js.Object_keys svcs)))))) /\
  forall svcs,
    services (getConfig E) = Some svcs ->
    snd <$> head (TEMPLATE_CONFIG_services E) <> Some "" ->
    createRequest E (Some "")
    <> Throw (Error (service_not_configured (Some "")
                       (Js.join ", " (Js.Object_keys svcs)))).
Proof.
  assert (H0 : createRequest E (Some "") = createRequest E None)
    by reflexivity.
  split; [exact H0|]. split; [|split].
  - rewrite H0. destruct (services (getConfig E)) as [svcs|] eqn:Hs.
    + rewrite (createRequest_unfold E None svcs Hs).
      rewrite (createRequest_unfold E (snd <$> head _) svcs Hs).
      by rewrite resolved_default.
    + unfold createRequest. by rewrite Hs.
  - intros svcs Hs. by rewrite (createRequest_unfold E _ svcs Hs).
  - intros svcs Hs Hd. rewrite (createRequest_unfold E _ svcs Hs).
    unfold resolved. change (Js.truthy_string (Some "")) with false.
    cbv iota zeta. destruct (Js.truthy _); [discriminate|].
    intros Heq. apply Hd.
    apply (service_not_configured_empty _
             (Js.join ", " (Js.Object_keys svcs))).
    congruence.
Qed.

Lemma createRequest_empty_identifier_witness :
  createRequest sample_env (Some "") = createRequest sample_env None /\
  createRequest sample_env (Some "")
  = createRequest sample_env (Some "MAIN") /\
  createRequest sample_env (Some "")
  = Return (request (Js.str "http://localhost:3000")) /\
  createRequest sample_env (Some "")
  <> Throw (Error (service_not_configured (Some "")
                     (Js.join ", " (Js.Object_keys sample_services)))).
Proof.
  destruct (createRequest_empty_identifier sample_env)
    as (H1 & H2 & H3 & H4).
  split; [exact H1|]. split; [exact H2|].
  split; [exact (H3 sample_services eq_refl)|].
  apply (H4 sample_services); [reflexivity | discriminate].
Defined.

Example createRequest_empty_identifier_sample :
  createRequest sample_env (Some "")
  = Return (request (Js.str "http://localhost:3000")) /\
  createRequest
    {| getConfig := {| services := Some [ ("PAYMENTS", Js.str "http://p") ] |};
       TEMPLATE_CONFIG_services := sample_registry |} (Some "")
  = Throw (Error (service_not_configured (Some "MAIN") "PAYMENTS")).
Proof. split; reflexivity. Qed.

(** ** The store *)

Section StoreFacts.

Lemma alter_lookup_insert (f : Test -> Test) (st : Store) (req : ref)
    (t : Test) :
  st !! req = Some t -> alter f req st = <[req := f t]> st.
Proof.
  revert req. induction st as [|x st IH]; intros [|req] H;
    simpl in *; try discriminate.
  - by injection H as ->.
  - f_equal. by apply IH.
Qed.

Lemma alter_fresh (f : Test -> Test) (st : Store) (t : Test) :
  alter f (List.length st) (st ++ [t])%list = (st ++ [f t])%list.
Proof.
  rewrite alter_app_r_alt by done. by rewrite Nat.sub_diag.
Qed.

End StoreFacts.

Section Headers.

Lemma with_headers_fields (headers : Js.props string) (t : Test) :
  with_headers headers t
  = {| method := method t; url := url t; app := app t;
       header := set_all headers (header t);
       _header := set_all (lower_keys headers) (_header t);
       qs := qs t; data := data t |}.
Proof.
  revert t. induction headers as [|[k v] hs IH]; intros t.
  - by destruct t.
  - change (with_headers ((k, v) :: hs) t)
      with (with_headers hs (with_header k v t)).
    by rewrite IH.
Qed.

Lemma lower_keys_keys (headers : Js.props string) :
  (lower_keys headers).*1 = Js.toLowerCase <$> headers.*1.
Proof.
  unfold lower_keys. rewrite <- !list_fmap_compose.
  apply list_fmap_ext. by intros i [k v] _.
Qed.

Lemma lower_keys_elem (headers : Js.props string) (k v : string) :
  (k, v) ∈ headers -> (Js.toLowerCase k, v) ∈ lower_keys headers.
Proof.
  intros Hin. unfold lower_keys.
  by apply (list_elem_of_fmap_2 (prod_map Js.toLowerCase id) _ (k, v)).
Qed.

(** Names that differ once lower-cased differ. *)
Lemma lower_notin (keys : list string) (k : string) :
  Js.toLowerCase k ∉ Js.toLowerCase <$> keys -> k ∉ keys.
Proof.
  intros Hk Hin. apply Hk. by apply list_elem_of_fmap_2.
Qed.

Lemma NoDup_lower (keys : list string) :
  NoDup (Js.toLowerCase <$> keys) -> NoDup keys.
Proof. apply NoDup_fmap_1. Qed.

Lemma withHeaders_alter (req : ref) (headers : Js.props string)
    (st : Store) :
  withHeaders req headers st
  = (Return req, alter (with_headers headers) req st).
Proof.
  unfold withHeaders, Js.Object_entries. f_equal.
  revert st. induction headers as [|[k v] hs IH]; intros st.
  - symmetry. by apply list_alter_id.
  - change (foldl _ st ((k, v) :: hs))
      with (foldl (fun s kv => (set req kv.1 kv.2 s).2)
              (alter (with_header k v) req st) hs).
    rewrite IH, list_alter_alter_eq. reflexivity.
Qed.

Lemma set_all_notin (headers : Js.props string) (h : gmap string string)
    (k : string) :
  k ∉ headers.*1 -> set_all headers h !! k = h !! k.
Proof.
  revert h. induction headers as [|[k' v'] hs IH]; intros h Hk.
  - reflexivity.
  - apply not_elem_of_cons in Hk as [Hne Hk].
    change (set_all ((k', v') :: hs) h) with (set_all hs (<[k' := v']> h)).
    rewrite IH by done. by rewrite lookup_insert_ne.
Qed.

Lemma set_all_in (headers : Js.props string) (h : gmap string string)
    (k v : string) :
  NoDup headers.*1 -> (k, v) ∈ headers -> set_all headers h !! k = Some v.
Proof.
  revert h. induction headers as [|[k' v'] hs IH]; intros h Hnd Hin.
  - by apply elem_of_nil in Hin.
  - apply NoDup_cons in Hnd as [Hk' Hnd].
    change (set_all ((k', v') :: hs) h) with (set_all hs (<[k' := v']> h)).
    apply elem_of_cons in Hin as [[= -> ->] | Hin].
    + rewrite set_all_notin by done. apply lookup_insert_eq.
    + by apply IH.
Qed.

(** [.set] calls on distinct field names commute. *)
Lemma set_all_perm (hs hs' : Js.props string) :
  Permutation hs hs' -> NoDup hs.*1 ->
  forall h, set_all hs h = set_all hs' h.
Proof.
  induction 1 as [| [k v] l l' Hp IH | [k1 v1] [k2 v2] l
                  | l l' l'' Hp1 IH1 Hp2 IH2]; intros Hnd h.
  - reflexivity.
  - apply NoDup_cons in Hnd as [_ Hnd]. by apply IH.
  - apply NoDup_cons in Hnd as [Hne _].
    apply not_elem_of_cons in Hne as [Hne _]. simpl in Hne.
    unfold set_all. simpl. by rewrite insert_insert_ne.
  - rewrite IH1 by done. apply IH2. by rewrite <- Hp1.
Qed.

End Headers.

(** ** Decorators *)

(** C6: [withAuth(req, t1)] sets the header [Authorization] of [req] to
    exactly [Bearer t1]; a second [withAuth] with [t2] leaves the builder
    as a single [withAuth(req, t2)] would: the last token wins and nothing
    of the first remains. *)
Theorem withAuth_bearer (st : Store) (req : ref) (test : Test)
    (t1 t2 : string) :
  st !! req = Some test ->
  withAuth req t1 st
  = (Return req, <[req := with_header "Authorization" ("Bearer " +:+ t1) test]> st) /\
  header (with_header "Authorization" ("Bearer " +:+ t1) test) !! "Authorization"
  = Some ("Bearer " +:+ t1) /\
  (r ← withAuth req t1; withAuth r t2) st
  = (Return req, <[req := with_header "Authorization" ("Bearer " +:+ t2) test]> st) /\
  (r ← withAuth req t1; withAuth r t2) st = withAuth req t2 st.
Proof.
  intros Hreq.
  assert (Hone : forall t, withAuth req t st
      = (Return req, <[req := with_header "Authorization" ("Bearer " +:+ t) test]> st)).
  { intros t. unfold withAuth, set. f_equal.
    by apply alter_lookup_insert. }
  assert (Htwo : (r ← withAuth req t1; withAuth r t2) st
      = (Return req, <[req := with_header "Authorization" ("Bearer " +:+ t2) test]> st)).
  { unfold mbind, M_bind, bind. rewrite Hone. unfold withAuth, set. f_equal.
    rewrite (alter_lookup_insert _ _ req
               (with_header "Authorization" ("Bearer " +:+ t1) test)).
    - rewrite list_insert_insert_eq. f_equal.
      unfold with_header. simpl. f_equal; apply insert_insert_eq.
    - apply list_lookup_insert_eq. by eapply lookup_lt_Some. }
  repeat split.
  - apply Hone.
  - simpl. apply lookup_insert_eq.
  - apply Htwo.
  - by rewrite Htwo, Hone.
Qed.

Lemma withAuth_bearer_witness :
  withAuth 0 "t1" sample_store
  = (Return 0,
     <[0 := with_header "Authorization" ("Bearer " +:+ "t1") sample_Test]>
       sample_store) /\
  header (with_header "Authorization" ("Bearer " +:+ "t1") sample_Test)
    !! "Authorization"
  = Some ("Bearer " +:+ "t1") /\
  (r ← withAuth 0 "t1"; withAuth r "t2") sample_store
  = (Return 0,
     <[0 := with_header "Authorization" ("Bearer " +:+ "t2") sample_Test]>
       sample_store) /\
  (r ← withAuth 0 "t1"; withAuth r "t2") sample_store
  = withAuth 0 "t2" sample_store.
Proof.
  apply (withAuth_bearer sample_store 0 sample_Test "t1" "t2").
  reflexivity.
Defined.

(** C7, as stated, fails: an explicit header name may be [x-api-key]
    itself, or [x-api-key] in other letter case, and then that header is
    set. *)
Lemma withApiKey_explicit_default_name :
  (header sample_Test !! "x-api-key" = None /\
   withApiKey 0 "k1" (Some "x-api-key") sample_store
   = (Return 0, [ with_header "x-api-key" "k1" sample_Test ]) /\
   header (with_header "x-api-key" "k1" sample_Test) !! "x-api-key"
   = Some "k1") /\
  (get_header sample_Test "x-api-key" = None /\
   withApiKey 0 "k1" (Some "X-API-KEY") sample_store
   = (Return 0, [ with_header "X-API-KEY" "k1" sample_Test ]) /\
   get_header (with_header "X-API-KEY" "k1" sample_Test) "x-api-key"
   = Some "k1").
Proof. repeat split; vm_compute; reflexivity. Qed.

(** C7 (amended): without a header name, [withApiKey(req, k)] sets the
    header [x-api-key] of [req] to [k]; with an explicit name [h] it sets
    the header [h] to [k] and, when [h] is not [x-api-key] in any letter
    case, leaves the header [x-api-key] as it was, on the wire and for
    [req.get]. *)
Theorem withApiKey_header (st : Store) (req : ref) (test : Test)
    (k h : string) :
  st !! req = Some test ->
  (withApiKey req k None st
   = (Return req, <[req := with_header "x-api-key" k test]> st) /\
   header (with_header "x-api-key" k test) !! "x-api-key" = Some k /\
   get_header (with_header "x-api-key" k test) "x-api-key" = Some k) /\
  (withApiKey req k (Some h) st
   = (Return req, <[req := with_header h k test]> st) /\
   header (with_header h k test) !! h = Some k /\
   get_header (with_header h k test) h = Some k /\
   (Js.toLowerCase h <> "x-api-key" ->
    header (with_header h k test) !! "x-api-key"
    = header test !! "x-api-key" /\
    get_header (with_header h k test) "x-api-key"
    = get_header test "x-api-key")).
Proof.
  intros Hreq.
  assert (Hset : forall f, set req f k st
                           = (Return req, <[req := with_header f k test]> st)).
  { intros f. unfold set. f_equal. by apply alter_lookup_insert. }
  unfold withApiKey, get_header. simpl.
  split; [split; [apply Hset | split; apply lookup_insert_eq]|].
  split; [apply Hset|]. split; [apply lookup_insert_eq|].
  split; [apply lookup_insert_eq|].
  intros Hne. split.
  - apply lookup_insert_ne. intros ->. by apply Hne.
  - by apply lookup_insert_ne.
Qed.

Lemma withApiKey_header_witness :
  (withApiKey 0 "k1" None sample_store
   = (Return 0, <[0 := with_header "x-api-key" "k1" sample_Test]> sample_store)
   /\ header (with_header "x-api-key" "k1" sample_Test) !! "x-api-key"
      = Some "k1"
   /\ get_header (with_header "x-api-key" "k1" sample_Test) "x-api-key"
      = Some "k1") /\
  (withApiKey 0 "k1" (Some "X-Custom") sample_store
   = (Return 0, <[0 := with_header "X-Custom" "k1" sample_Test]> sample_store)
   /\ header (with_header "X-Custom" "k1" sample_Test) !! "X-Custom"
      = Some "k1"
   /\ get_header (with_header "X-Custom" "k1" sample_Test) "X-Custom"
      = Some "k1"
   /\ header (with_header "X-Custom" "k1" sample_Test) !! "x-api-key"
      = header sample_Test !! "x-api-key"
   /\ get_header (with_header "X-Custom" "k1" sample_Test) "x-api-key"
      = get_header sample_Test "x-api-key").
Proof.
  destruct (withApiKey_header sample_store 0 sample_Test "k1" "X-Custom"
              eq_refl) as (Hdefault & Hset & Hwire & Hget & Hother).
  split; [exact Hdefault|]. split; [exact Hset|]. split; [exact Hwire|].
  split; [exact Hget|]. apply Hother. discriminate.
Defined.

Example withApiKey_custom_name :
  header (with_header "X-Custom" "k1" sample_Test) !! "x-api-key" = None /\
  get_header (with_header "X-Custom" "k1" sample_Test) "x-custom"
  = Some "k1".
Proof. split; vm_compute; reflexivity. Qed.

(** C8, as stated, fails: [A] and [a] are distinct keys of a mapping but
    one header for the client, so the two enumeration orders leave
    different requests, and [A] does not read back with its own value. *)
Lemma withHeaders_case_collision :
  NoDup (Js.Object_keys [ ("A", "1"); ("a", "2") ]) /\
  Permutation [ ("A", "1"); ("a", "2") ] [ ("a", "2"); ("A", "1") ] /\
  withHeaders 0 [ ("a", "2"); ("A", "1") ] sample_store
  <> withHeaders 0 [ ("A", "1"); ("a", "2") ] sample_store /\
  get_header (with_headers [ ("A", "1"); ("a", "2") ] sample_Test) "A"
  = Some "2" /\
  get_header (with_headers [ ("a", "2"); ("A", "1") ] sample_Test) "A"
  = Some "1".
Proof.
  split; [|split; [|split; [|split]]].
  - apply NoDup_cons. split; [|apply NoDup_singleton].
    intros H. apply list_elem_of_singleton in H. discriminate H.
  - apply perm_swap.
  - intros H.
    apply (f_equal (fun r => r.2 !! 0 ≫= fun t => get_header t "A")) in H.
    vm_compute in H. discriminate H.
  - vm_compute. reflexivity.
  - vm_compute. reflexivity.
Qed.

(** C8 (amended): for a mapping whose header names are distinct even
    without regard to letter case, [withHeaders(req, m)] returns [req],
    leaves every header of the mapping on the builder with its exact
    value, on the wire and for [req.get], and yields the same store
    whatever the order in which the mapping is enumerated. *)
Theorem withHeaders_distinct_names (st : Store) (req : ref) (test : Test)
    (headers : Js.props string) :
  st !! req = Some test ->
  NoDup (Js.toLowerCase <$> Js.Object_keys headers) ->
  withHeaders req headers st
  = (Return req, <[req := with_headers headers test]> st) /\
  (forall k v, In (k, v) (Js.Object_entries headers) ->
               header (with_headers headers test) !! k = Some v /\
               get_header (with_headers headers test) k = Some v) /\
  (forall headers', Permutation headers headers' ->
                    withHeaders req headers' st = withHeaders req headers st).
Proof.
  unfold Js.Object_keys, Js.Object_entries. intros Hreq Hnd.
  assert (Hnd' : NoDup (lower_keys headers).*1)
    by (by rewrite lower_keys_keys).
  split; [|split].
  - rewrite withHeaders_alter. f_equal. by apply alter_lookup_insert.
  - intros k v Hin. apply list_elem_of_In in Hin.
    unfold get_header. rewrite with_headers_fields. simpl. split.
    + apply set_all_in; [by apply NoDup_lower | done].
    + apply set_all_in; [done | by apply lower_keys_elem].
  - intros headers' Hp. rewrite !withHeaders_alter. f_equal.
    apply list_alter_ext; [|done]. intros t _.
    rewrite !with_headers_fields. f_equal; symmetry.
    + apply set_all_perm; [done | by apply NoDup_lower].
    + apply set_all_perm; [|done]. unfold lower_keys. by rewrite Hp.
Qed.

Lemma withHeaders_distinct_names_witness :
  withHeaders 0 [ ("A", "1"); ("B", "2") ] sample_store
  = (Return 0,
     <[0 := with_headers [ ("A", "1"); ("B", "2") ] sample_Test]>
       sample_store) /\
  (header (with_headers [ ("A", "1"); ("B", "2") ] sample_Test) !! "A"
   = Some "1" /\
   get_header (with_headers [ ("A", "1"); ("B", "2") ] sample_Test) "A"
   = Some "1") /\
  (header (with_headers [ ("A", "1"); ("B", "2") ] sample_Test) !! "B"
   = Some "2" /\
   get_header (with_headers [ ("A", "1"); ("B", "2") ] sample_Test) "B"
   = Some "2") /\
  withHeaders 0 [ ("B", "2"); ("A", "1") ] sample_store
  = withHeaders 0 [ ("A", "1"); ("B", "2") ] sample_store.
Proof.
  assert (Hnd : NoDup (Js.toLowerCase
                         <$> Js.Object_keys [ ("A", "1"); ("B", "2") ])).
  { apply NoDup_cons. split; [|apply NoDup_singleton].
    intros H. apply list_elem_of_singleton in H. discriminate H. }
  destruct (withHeaders_distinct_names sample_store 0 sample_Test
              [ ("A", "1"); ("B", "2") ] eq_refl Hnd)
    as (Hret & Hall & Horder).
  split; [exact Hret|]. split; [|split].
  - apply Hall. left. reflexivity.
  - apply Hall. right. left. reflexivity.
  - apply Horder. apply perm_swap.
Defined.

Example withHeaders_either_order :
  withHeaders 0 [ ("B", "2"); ("A", "1") ] sample_store
  = withHeaders 0 [ ("A", "1"); ("B", "2") ] sample_store /\
  header (with_headers [ ("B", "2"); ("A", "1") ] sample_Test) !! "A"
  = Some "1" /\
  get_header (with_headers [ ("B", "2"); ("A", "1") ] sample_Test) "b"
  = Some "2".
Proof. repeat split; vm_compute; reflexivity. Qed.

Lemma alter_in_place (decorator : M ref) (req : ref) (f : Test -> Test) :
  (forall st, decorator st = (Return req, alter f req st)) ->
  (forall t, method (f t) = method t /\ url (f t) = url t /\
             app (f t) = app t /\ data (f t) = data t) ->
  in_place decorator req.
Proof.
  intros Hd Hf st. exists (alter f req st). split; [apply Hd|].
  split; [apply length_alter|]. split.
  - intros r Hr. by apply list_lookup_alter_ne.
  - intros t Ht. exists (f t). split; [|apply Hf].
    by rewrite list_lookup_alter_eq, Ht.
Qed.

(** C9: each of the four decorators returns the request builder it was
    passed, the same object and not a copy, and changes nothing of it but
    its headers or its query parameters. *)
Theorem decorators_in_place (req : ref) (token apiKey : string)
    (headerName : option string) (headers : Js.props string)
    (params : Js.props Js.value) :
  in_place (withAuth req token) req /\
  in_place (withApiKey req apiKey headerName) req /\
  in_place (withHeaders req headers) req /\
  in_place (withQueryParams req params) req.
Proof.
  repeat split.
  - by apply (alter_in_place _ _
                (with_header "Authorization" ("Bearer " +:+ token))).
  - by apply (alter_in_place _ _
                (with_header (default "x-api-key" headerName) apiKey)).
  - apply (alter_in_place _ _ (with_headers headers)).
    + intros st. apply withHeaders_alter.
    + intros t. by rewrite with_headers_fields.
  - by apply (alter_in_place _ _ (with_query params)).
Qed.

(** ** Convenience builders *)

(** Running a builder whose factory call returned: the shared steps. *)
Ltac run_builder Hcreate :=
  unfold buildGetRequest, buildPostRequest, buildPutRequest,
    buildPatchRequest, buildDeleteRequest, mbind, M_bind, bind, lift,
    agent_call, send;
  rewrite Hcreate; cbn [agent_app request addressable].

(** A request that has just been created, and the same after [.send]. *)
Lemma with_send_new (m : Method) (u path : string) (body : Js.value) :
  with_send body (new_Test m (request (Js.str u)) path)
  = built m (Js.str u) path body (content_type body).
Proof. by destruct body. Qed.

(** [withAuth] on a built request adds the bearer header to its list. *)
Lemma with_auth_built (m : Method) (target : Js.value) (path : string)
    (body : Js.value) (headers : Js.props string) (token : string) :
  with_header "Authorization" ("Bearer " +:+ token)
    (built m target path body headers)
  = built m target path body (headers ++ bearer token)%list.
Proof.
  unfold built, with_header, lower_keys, bearer, set_all. simpl.
  by rewrite fmap_app, !foldl_app.
Qed.

Ltac finish_builder :=
  unfold withAuth, set, ret, Js.to_string;
  rewrite ?alter_fresh, ?with_send_new, ?with_auth_built.

Lemma built_authorization (m : Method) (target : Js.value) (path : string)
    (body : Js.value) (headers : Js.props string) (token : string) :
  header (built m target path body (headers ++ bearer token)%list)
    !! "Authorization"
  = Some ("Bearer " +:+ token) /\
  get_header (built m target path body (headers ++ bearer token)%list)
    "Authorization"
  = Some ("Bearer " +:+ token).
Proof.
  rewrite <- with_auth_built. unfold get_header. simpl.
  split; apply lookup_insert_eq.
Qed.

Lemma built_plain (m : Method) (target : Js.value) (path : string)
    (body : Js.value) (token : string) :
  built m target path body (content_type body ++ bearer token)%list
  = with_header "Authorization" ("Bearer " +:+ token)
      (built m target path body (content_type body)) /\
  header (built m target path body (content_type body))
    !! "Authorization" = None /\
  get_header (built m target path body (content_type body))
    "Authorization" = None.
Proof.
  split; [by rewrite with_auth_built|].
  by destruct body.
Qed.



(** * Further properties of the module *)

(** ** The builders, one by one *)

(** X1: for a service that [createRequest] resolves to a base URL,
    [buildGetRequest(path, token, svc)] adds one request to the store and
    returns it: method GET, the given path, no body, and
    [Authorization: Bearer token] as its only header; with the token
    omitted or empty the request has no header at all. *)
Theorem buildGetRequest_builder (E : Env) (path token : string)
    (svc : option string) (u : string) (st : Store) :
  createRequest E svc = Return (request (Js.str u)) ->
  token <> "" ->
  buildGetRequest E path (Some token) svc st
  = (Return (List.length st),
     (st ++ [ built GET (Js.str u) path Js.undefined
                (bearer token) ])%list) /\
  buildGetRequest E path None svc st
  = (Return (List.length st),
     (st ++ [ built GET (Js.str u) path Js.undefined [] ])%list) /\
  buildGetRequest E path (Some "") svc st
  = (Return (List.length st),
     (st ++ [ built GET (Js.str u) path Js.undefined [] ])%list) /\
  header (built GET (Js.str u) path Js.undefined (bearer token))
  = {[ "Authorization" := "Bearer " +:+ token ]} /\
  get_header (built GET (Js.str u) path Js.undefined (bearer token))
    "Authorization"
  = Some ("Bearer " +:+ token) /\
  header (built GET (Js.str u) path Js.undefined []) = ∅.
Proof.
  intros Hc Ht.
  assert (Hnone : forall t, Js.truthy_string t = false ->
    buildGetRequest E path t svc st
    = (Return (List.length st),
       (st ++ [ built GET (Js.str u) path Js.undefined [] ])%list)).
  { intros t Hf. run_builder Hc. by rewrite Hf. }
  split; [|split; [by apply Hnone | split; [by apply Hnone | done]]].
  run_builder Hc. rewrite (truthy_string_Some token Ht).
  unfold withAuth, set, Js.to_string. by rewrite alter_fresh.
Qed.

Lemma buildGetRequest_builder_witness :
  buildGetRequest sample_env "/users" (Some "tok") (Some "MAIN") []
  = (Return 0,
     [ built GET (Js.str "http://localhost:3000") "/users"
         Js.undefined (bearer "tok") ]) /\
  buildGetRequest sample_env "/users" None (Some "MAIN") []
  = (Return 0,
     [ built GET (Js.str "http://localhost:3000") "/users"
         Js.undefined [] ]) /\
  buildGetRequest sample_env "/users" (Some "") (Some "MAIN") []
  = (Return 0,
     [ built GET (Js.str "http://localhost:3000") "/users"
         Js.undefined [] ]) /\
  header (built GET (Js.str "http://localhost:3000") "/users"
            Js.undefined (bearer "tok"))
  = {[ "Authorization" := "Bearer " +:+ "tok" ]} /\
  get_header (built GET (Js.str "http://localhost:3000") "/users"
                Js.undefined (bearer "tok")) "Authorization"
  = Some ("Bearer " +:+ "tok") /\
  header (built GET (Js.str "http://localhost:3000") "/users"
            Js.undefined []) = ∅.
Proof.
  apply (buildGetRequest_builder sample_env "/users" "tok" (Some "MAIN")
           "http://localhost:3000" []); [reflexivity | discriminate].
Defined.

(** X2: for a service that [createRequest] resolves to a base URL,
    [buildPutRequest(path, body, token, svc)] adds one request to the
    store and returns it: method PUT, the given path and body, the content
    type [.send] chooses for the body, and [Authorization: Bearer token];
    with the token omitted or empty it is the same request without the
    [Authorization] header. *)
Theorem buildPutRequest_builder (E : Env) (path : string) (body : Js.value)
    (token : string) (svc : option string) (u : string) (st : Store) :
  createRequest E svc = Return (request (Js.str u)) ->
  token <> "" ->
  buildPutRequest E path body (Some token) svc st
  = (Return (List.length st),
     (st ++ [ built PUT (Js.str u) path body
                (content_type body ++ bearer token)%list ])%list) /\
  buildPutRequest E path body None svc st
  = (Return (List.length st),
     (st ++ [ built PUT (Js.str u) path body (content_type body) ])%list)
  /\
  buildPutRequest E path body (Some "") svc st
  = (Return (List.length st),
     (st ++ [ built PUT (Js.str u) path body (content_type body) ])%list)
  /\
  (header (built PUT (Js.str u) path body
             (content_type body ++ bearer token)%list) !! "Authorization"
   = Some ("Bearer " +:+ token) /\
   get_header (built PUT (Js.str u) path body
                 (content_type body ++ bearer token)%list) "Authorization"
   = Some ("Bearer " +:+ token)) /\
  (built PUT (Js.str u) path body (content_type body ++ bearer token)%list
   = with_header "Authorization" ("Bearer " +:+ token)
       (built PUT (Js.str u) path body (content_type body)) /\
   header (built PUT (Js.str u) path body (content_type body))
     !! "Authorization" = None /\
   get_header (built PUT (Js.str u) path body (content_type body))
     "Authorization" = None) /\
  buildPutRequest E path body (Some token) svc st
  = (req ← buildPutRequest E path body None svc; withAuth req token) st.
Proof.
  intros Hc Ht.
  assert (Hnone : forall t, Js.truthy_string t = false ->
    buildPutRequest E path body t svc st
    = (Return (List.length st),
       (st ++ [ built PUT (Js.str u) path body
                  (content_type body) ])%list)).
  { intros t Hf. run_builder Hc. rewrite Hf. by finish_builder. }
  assert (Hsome : buildPutRequest E path body (Some token) svc st
    = (Return (List.length st),
       (st ++ [ built PUT (Js.str u) path body
                  (content_type body ++ bearer token)%list ])%list)).
  { run_builder Hc. rewrite (truthy_string_Some token Ht).
    by finish_builder. }
  split; [exact Hsome|]. split; [by apply Hnone|]. split; [by apply Hnone|].
  split; [apply built_authorization|]. split; [apply built_plain|].
  rewrite Hsome. unfold mbind, M_bind, bind at 1.
  rewrite (Hnone None eq_refl). unfold withAuth, set.
  by rewrite alter_fresh, with_auth_built.
Qed.

Lemma buildPutRequest_builder_witness :
  buildPutRequest sample_env "/users/1" sample_body (Some "tok")
    (Some "MAIN") []
  = (Return 0,
     [ built PUT (Js.str "http://localhost:3000") "/users/1"
         sample_body (content_type sample_body ++ bearer "tok")%list ]) /\
  buildPutRequest sample_env "/users/1" sample_body None (Some "MAIN") []
  = (Return 0,
     [ built PUT (Js.str "http://localhost:3000") "/users/1"
         sample_body (content_type sample_body) ]) /\
  buildPutRequest sample_env "/users/1" sample_body (Some "") (Some "MAIN") []
  = (Return 0,
     [ built PUT (Js.str "http://localhost:3000") "/users/1"
         sample_body (content_type sample_body) ]) /\
  (header (built PUT (Js.str "http://localhost:3000") "/users/1"
             sample_body (content_type sample_body ++ bearer "tok")%list)
     !! "Authorization"
   = Some ("Bearer " +:+ "tok") /\
   get_header (built PUT (Js.str "http://localhost:3000") "/users/1"
                 sample_body (content_type sample_body ++ bearer "tok")%list)
     "Authorization"
   = Some ("Bearer " +:+ "tok")) /\
  (built PUT (Js.str "http://localhost:3000") "/users/1" sample_body
     (content_type sample_body ++ bearer "tok")%list
   = with_header "Authorization" ("Bearer " +:+ "tok")
       (built PUT (Js.str "http://localhost:3000") "/users/1"
          sample_body (content_type sample_body)) /\
   header (built PUT (Js.str "http://localhost:3000") "/users/1"
             sample_body (content_type sample_body)) !! "Authorization"
   = None /\
   get_header (built PUT (Js.str "http://localhost:3000") "/users/1"
                 sample_body (content_type sample_body)) "Authorization"
   = None) /\
  buildPutRequest sample_env "/users/1" sample_body (Some "tok")
    (Some "MAIN") []
  = (req ← buildPutRequest sample_env "/users/1" sample_body None
             (Some "MAIN");
     withAuth req "tok") [].
Proof.
  apply (buildPutRequest_builder sample_env "/users/1" sample_body "tok"
           (Some "MAIN") "http://localhost:3000" []);
    [reflexivity | discriminate].
Defined.

(** X3: for a service that [createRequest] resolves to a base URL,
    [buildPatchRequest(path, body, token, svc)] adds one request to the
    store and returns it: method PATCH, the given path and body, the
    content type [.send] chooses for the body, and
    [Authorization: Bearer token]; with the token omitted or empty it is
    the same request without the [Authorization] header. *)
Theorem buildPatchRequest_builder (E : Env) (path : string) (body : Js.value)
    (token : string) (svc : option string) (u : string) (st : Store) :
  createRequest E svc = Return (request (Js.str u)) ->
  token <> "" ->
  buildPatchRequest E path body (Some token) svc st
  = (Return (List.length st),
     (st ++ [ built PATCH (Js.str u) path body
                (content_type body ++ bearer token)%list ])%list) /\
  buildPatchRequest E path body None svc st
  = (Return (List.length st),
     (st ++ [ built PATCH (Js.str u) path body (content_type body) ])%list)
  /\
  buildPatchRequest E path body (Some "") svc st
  = (Return (List.length st),
     (st ++ [ built PATCH (Js.str u) path body (content_type body) ])%list)
  /\
  (header (built PATCH (Js.str u) path body
             (content_type body ++ bearer token)%list) !! "Authorization"
   = Some ("Bearer " +:+ token) /\
   get_header (built PATCH (Js.str u) path body
                 (content_type body ++ bearer token)%list) "Authorization"
   = Some ("Bearer " +:+ token)) /\
  (built PATCH (Js.str u) path body (content_type body ++ bearer token)%list
   = with_header "Authorization" ("Bearer " +:+ token)
       (built PATCH (Js.str u) path body (content_type body)) /\
   header (built PATCH (Js.str u) path body (content_type body))
     !! "Authorization" = None /\
   get_header (built PATCH (Js.str u) path body (content_type body))
     "Authorization" = None) /\
  buildPatchRequest E path body (Some token) svc st
  = (req ← buildPatchRequest E path body None svc; withAuth req token) st.
Proof.
  intros Hc Ht.
  assert (Hnone : forall t, Js.truthy_string t = false ->
    buildPatchRequest E path body t svc st
    = (Return (List.length st),
       (st ++ [ built PATCH (Js.str u) path body
                  (content_type body) ])%list)).
  { intros t Hf. run_builder Hc. rewrite Hf. by finish_builder. }
  assert (Hsome : buildPatchRequest E path body (Some token) svc st
    = (Return (List.length st),
       (st ++ [ built PATCH (Js.str u) path body
                  (content_type body ++ bearer token)%list ])%list)).
  { run_builder Hc. rewrite (truthy_string_Some token Ht).
    by finish_builder. }
  split; [exact Hsome|]. split; [by apply Hnone|]. split; [by apply Hnone|].
  split; [apply built_authorization|]. split; [apply built_plain|].
  rewrite Hsome. unfold mbind, M_bind, bind at 1.
  rewrite (Hnone None eq_refl). unfold withAuth, set.
  by rewrite alter_fresh, with_auth_built.
Qed.

Lemma buildPatchRequest_builder_witness :
  buildPatchRequest sample_env "/users/1" sample_body (Some "tok")
    (Some "MAIN") []
  = (Return 0,
     [ built PATCH (Js.str "http://localhost:3000") "/users/1"
         sample_body (content_type sample_body ++ bearer "tok")%list ]) /\
  buildPatchRequest sample_env "/users/1" sample_body None (Some "MAIN") []
  = (Return 0,
     [ built PATCH (Js.str "http://localhost:3000") "/users/1"
         sample_body (content_type sample_body) ]) /\
  buildPatchRequest sample_env "/users/1" sample_body (Some "") (Some "MAIN") []
  = (Return 0,
     [ built PATCH (Js.str "http://localhost:3000") "/users/1"
         sample_body (content_type sample_body) ]) /\
  (header (built PATCH (Js.str "http://localhost:3000") "/users/1"
             sample_body (content_type sample_body ++ bearer "tok")%list)
     !! "Authorization"
   = Some ("Bearer " +:+ "tok") /\
   get_header (built PATCH (Js.str "http://localhost:3000") "/users/1"
                 sample_body (content_type sample_body ++ bearer "tok")%list)
     "Authorization"
   = Some ("Bearer " +:+ "tok")) /\
  (built PATCH (Js.str "http://localhost:3000") "/users/1" sample_body
     (content_type sample_body ++ bearer "tok")%list
   = with_header "Authorization" ("Bearer " +:+ "tok")
       (built PATCH (Js.str "http://localhost:3000") "/users/1"
          sample_body (content_type sample_body)) /\
   header (built PATCH (Js.str "http://localhost:3000") "/users/1"
             sample_body (content_type sample_body)) !! "Authorization"
   = None /\
   get_header (built PATCH (Js.str "http://localhost:3000") "/users/1"
                 sample_body (content_type sample_body)) "Authorization"
   = None) /\
  buildPatchRequest sample_env "/users/1" sample_body (Some "tok")
    (Some "MAIN") []
  = (req ← buildPatchRequest sample_env "/users/1" sample_body None
             (Some "MAIN");
     withAuth req "tok") [].
Proof.
  apply (buildPatchRequest_builder sample_env "/users/1" sample_body "tok"
           (Some "MAIN") "http://localhost:3000" []);
    [reflexivity | discriminate].
Defined.

(** X4: for a service that [createRequest] resolves to a base URL,
    [buildDeleteRequest(path, token, svc)] adds one request to the store
    and returns it: method DELETE, the given path, no body, and
    [Authorization: Bearer token] as its only header; with the token
    omitted or empty it has no header. *)
Theorem buildDeleteRequest_builder (E : Env) (path token : string)
    (svc : option string) (u : string) (st : Store) :
  createRequest E svc = Return (request (Js.str u)) ->
  token <> "" ->
  buildDeleteRequest E path (Some token) svc st
  = (Return (List.length st),
     (st ++ [ built DELETE (Js.str u) path Js.undefined
                (bearer token) ])%list) /\
  buildDeleteRequest E path None svc st
  = (Return (List.length st),
     (st ++ [ built DELETE (Js.str u) path Js.undefined [] ])%list) /\
  buildDeleteRequest E path (Some "") svc st
  = (Return (List.length st),
     (st ++ [ built DELETE (Js.str u) path Js.undefined [] ])%list) /\
  header (built DELETE (Js.str u) path Js.undefined (bearer token))
  = {[ "Authorization" := "Bearer " +:+ token ]} /\
  get_header (built DELETE (Js.str u) path Js.undefined (bearer token))
    "Authorization"
  = Some ("Bearer " +:+ token) /\
  header (built DELETE (Js.str u) path Js.undefined []) = ∅.
Proof.
  intros Hc Ht.
  assert (Hnone : forall t, Js.truthy_string t = false ->
    buildDeleteRequest E path t svc st
    = (Return (List.length st),
       (st ++ [ built DELETE (Js.str u) path Js.undefined [] ])%list)).
  { intros t Hf. run_builder Hc. by rewrite Hf. }
  split; [|split; [by apply Hnone | split; [by apply Hnone | done]]].
  run_builder Hc. rewrite (truthy_string_Some token Ht).
  unfold withAuth, set, Js.to_string. by rewrite alter_fresh.
Qed.

Lemma buildDeleteRequest_builder_witness :
  buildDeleteRequest sample_env "/users/1" (Some "tok") (Some "MAIN") []
  = (Return 0,
     [ built DELETE (Js.str "http://localhost:3000") "/users/1"
         Js.undefined (bearer "tok") ]) /\
  buildDeleteRequest sample_env "/users/1" None (Some "MAIN") []
  = (Return 0,
     [ built DELETE (Js.str "http://localhost:3000") "/users/1"
         Js.undefined [] ]) /\
  buildDeleteRequest sample_env "/users/1" (Some "") (Some "MAIN") []
  = (Return 0,
     [ built DELETE (Js.str "http://localhost:3000") "/users/1"
         Js.undefined [] ]) /\
  header (built DELETE (Js.str "http://localhost:3000") "/users/1"
            Js.undefined (bearer "tok"))
  = {[ "Authorization" := "Bearer " +:+ "tok" ]} /\
  get_header (built DELETE (Js.str "http://localhost:3000") "/users/1"
                Js.undefined (bearer "tok")) "Authorization"
  = Some ("Bearer " +:+ "tok") /\
  header (built DELETE (Js.str "http://localhost:3000") "/users/1"
            Js.undefined []) = ∅.
Proof.
  apply (buildDeleteRequest_builder sample_env "/users/1" "tok" (Some "MAIN")
           "http://localhost:3000" []); [reflexivity | discriminate].
Defined.

(** ** Failure of the builders *)

(** X5: whatever error [createRequest] throws for a service, each of the
    five builders throws that same error for it and leaves the store
    untouched: nothing is allocated, no request is modified. *)
Theorem builders_propagate_error (E : Env) (svc : option string)
    (e : JsError) :
  createRequest E svc = Throw e ->
  forall path body token st,
    buildGetRequest E path token svc st = (Throw e, st) /\
    buildPostRequest E path body token svc st = (Throw e, st) /\
    buildPutRequest E path body token svc st = (Throw e, st) /\
    buildPatchRequest E path body token svc st = (Throw e, st) /\
    buildDeleteRequest E path token svc st = (Throw e, st).
Proof.
  intros Hc path body token st. repeat split; run_builder Hc; reflexivity.
Qed.

Lemma builders_propagate_error_witness :
  buildGetRequest sample_env "/users" (Some "tok") (Some "BILLING")
    sample_store
  = (Throw (Error billing_message), sample_store) /\
  buildPostRequest sample_env "/users" sample_body (Some "tok")
    (Some "BILLING") sample_store
  = (Throw (Error billing_message), sample_store) /\
  buildPutRequest sample_env "/users" sample_body (Some "tok")
    (Some "BILLING") sample_store
  = (Throw (Error billing_message), sample_store) /\
  buildPatchRequest sample_env "/users" sample_body (Some "tok")
    (Some "BILLING") sample_store
  = (Throw (Error billing_message), sample_store) /\
  buildDeleteRequest sample_env "/users" (Some "tok") (Some "BILLING")
    sample_store
  = (Throw (Error billing_message), sample_store).
Proof.
  apply (builders_propagate_error sample_env (Some "BILLING")
           (Error billing_message) eq_refl "/users" sample_body
           (Some "tok") sample_store).
Defined.

(** Unfolding a builder down to the calls of the client. *)
Ltac open_builders :=
  unfold buildGetRequest, buildPostRequest, buildPutRequest,
    buildPatchRequest, buildDeleteRequest, mbind, M_bind, bind, lift,
    agent_call, send, withAuth, set, ret.

(** X6: the two builders that send no body add no configuration failure
    of their own: [buildGetRequest] and [buildDeleteRequest] throw an
    [Error] with a given message exactly when [createRequest] throws it
    for the same service; path and token never make them do so. *)
Theorem bodyless_builders_error_iff (E : Env) (svc : option string)
    (message path : string) (token : option string) (st : Store) :
  ((buildGetRequest E path token svc st).1 = Throw (Error message)
   <-> createRequest E svc = Throw (Error message)) /\
  ((buildDeleteRequest E path token svc st).1 = Throw (Error message)
   <-> createRequest E svc = Throw (Error message)).
Proof.
  open_builders.
  destruct (createRequest E svc) as [a | e];
    [destruct (addressable (agent_app a)), (Js.truthy_string token)|];
    simpl; repeat split; intros H; try discriminate H;
    injection H as ->; reflexivity.
Qed.

(** X7: every builder allocates at most one request: when it returns, the
    store has grown by exactly one object, placed after the existing ones
    (which are unchanged), and the result is the reference to that new
    object; when it throws, the store is as before. *)
Theorem builders_allocate_one (E : Env) (path : string) (body : Js.value)
    (token svc : option string) :
  allocates_one (buildGetRequest E path token svc) /\
  allocates_one (buildPostRequest E path body token svc) /\
  allocates_one (buildPutRequest E path body token svc) /\
  allocates_one (buildPatchRequest E path body token svc) /\
  allocates_one (buildDeleteRequest E path token svc).
Proof.
  unfold allocates_one. open_builders.
  destruct (createRequest E svc) as [a | e];
    [destruct (addressable (agent_app a)), (Js.truthy_string token)|];
    repeat split; try intros st; simpl; rewrite ?alter_fresh; eauto.
Qed.

(** ** More on the request factory *)

(** The two messages of the factory are never the same text. *)
Lemma messages_differ (d : option string) (a : string) :
  service_not_configured d a <> services_not_configured.
Proof.
  intros H. apply (f_equal (String.get 7)) in H.
  unfold service_not_configured, services_not_configured in H.
  rewrite !append_cons in H. simpl in H. discriminate H.
Qed.

(** X8: the error about the missing services object is thrown exactly when
    the configuration has no services mapping; no other failure of the
    factory carries that message. *)
Theorem createRequest_services_error_iff (E : Env)
    (serviceName : option string) :
  createRequest E serviceName = Throw (Error services_not_configured)
  <-> services (getConfig E) = None.
Proof.
  split.
  - destruct (services (getConfig E)) as [svcs|] eqn:Hs; [|done].
    rewrite (createRequest_unfold E _ svcs Hs). cbv zeta.
    destruct (Js.truthy _); [discriminate|].
    intros H. exfalso.
    apply (messages_differ (resolved E serviceName)
             (Js.join ", " (Js.Object_keys svcs))).
    congruence.
  - intros Hs. unfold createRequest. by rewrite Hs.
Qed.

(** X9: the factory never returns a builder without a target: whenever
    [createRequest] returns, the target is a truthy value (not
    [undefined], not the empty string) read from the services mapping of
    the environment configuration. *)
Theorem createRequest_target_truthy (E : Env) (serviceName : option string)
    (a : Agent) :
  createRequest E serviceName = Return a ->
  Js.truthy (agent_app a) = true /\
  exists svcs k,
    services (getConfig E) = Some svcs /\ agent_app a = Js.get svcs k.
Proof.
  destruct (services (getConfig E)) as [svcs|] eqn:Hs.
  - rewrite (createRequest_unfold E _ svcs Hs). cbv zeta.
    destruct (Js.truthy _) eqn:Ht; [|discriminate].
    intros [= <-]. split; [exact Ht|]. by eexists _, _.
  - unfold createRequest. rewrite Hs. discriminate.
Qed.

Lemma createRequest_target_truthy_witness :
  Js.truthy (agent_app sample_agent) = true /\
  exists svcs k,
    services (getConfig sample_env) = Some svcs /\
    agent_app sample_agent = Js.get svcs k.
Proof.
  apply (createRequest_target_truthy sample_env (Some "MAIN") sample_agent).
  reflexivity.
Defined.

(** X10: a non-empty service identifier passed explicitly is looked up as
    it is: the service registry is not consulted, so two environments
    with the same configuration give the same outcome for it whatever
    their registries. *)
Theorem createRequest_explicit_ignores_registry (E E' : Env) (s : string) :
  s <> "" ->
  getConfig E = getConfig E' ->
  createRequest E (Some s) = createRequest E' (Some s).
Proof.
  intros Hs Hcfg. unfold createRequest. rewrite Hcfg.
  by rewrite (truthy_string_Some s Hs).
Qed.

Lemma createRequest_explicit_ignores_registry_witness :
  createRequest sample_env (Some "PAYMENTS")
  = createRequest empty_registry_env (Some "PAYMENTS").
Proof.
  apply (createRequest_explicit_ignores_registry sample_env
           empty_registry_env "PAYMENTS"); [discriminate | reflexivity].
Defined.

(** X11: a service that the mapping holds with a falsy value (an empty
    URL, [undefined]) is rejected like a missing one, while the list of
    available services in the message still contains its name. *)
Theorem createRequest_falsy_entry (E : Env) (svcs : Js.props Js.value)
    (s : string) (v : Js.value) :
  services (getConfig E) = Some svcs ->
  s <> "" ->
  Js.own svcs s = Some v ->
  Js.truthy v = false ->
  createRequest E (Some s)
  = Throw (Error (service_not_configured (Some s)
                    (Js.join ", " (Js.Object_keys svcs)))) /\
  Js.includes (Js.join ", " (Js.Object_keys svcs)) s.
Proof.
  intros Hs Hne Hown Hv. split.
  - rewrite (createRequest_unfold E _ svcs Hs). unfold resolved.
    rewrite (truthy_string_Some s Hne). cbv zeta.
    unfold Js.to_string, Js.get. by rewrite Hown, Hv.
  - apply join_includes. by eapply own_Some_In.
Qed.

Lemma createRequest_falsy_entry_witness :
  createRequest empty_url_env (Some "MAIN")
  = Throw (Error (service_not_configured (Some "MAIN")
                    (Js.join ", " (Js.Object_keys [ ("MAIN", Js.str "") ]))))
  /\ Js.includes (Js.join ", " (Js.Object_keys [ ("MAIN", Js.str "") ]))
       "MAIN".
Proof.
  apply (createRequest_falsy_entry empty_url_env [ ("MAIN", Js.str "") ]
           "MAIN" (Js.str ""));
    [reflexivity | discriminate | reflexivity | reflexivity].
Defined.

(** X12: with an empty service registry there is no default: an omitted
    (or empty) identifier stays [undefined] and is looked up under the key
    [undefined]; unless the mapping has such a key, the error names the
    service "undefined". *)
Theorem createRequest_empty_registry (E : Env) (svcs : Js.props Js.value) :
  TEMPLATE_CONFIG_services E = [] ->
  services (getConfig E) = Some svcs ->
  createRequest E (Some "") = createRequest E None /\
  createRequest E None
  = (if Js.truthy (Js.get svcs "undefined")
     then Return (request (Js.get svcs "undefined"))
     else Throw (Error (service_not_configured None
                          (Js.join ", " (Js.Object_keys svcs))))) /\
  (~ In "undefined" (Js.Object_keys svcs) ->
   createRequest E None
   = Throw (Error (service_not_configured (Some "undefined")
                     (Js.join ", " (Js.Object_keys svcs))))).
Proof.
  intros Hreg Hs.
  assert (Hnone : createRequest E None
     = (if Js.truthy (Js.get svcs "undefined")
        then Return (request (Js.get svcs "undefined"))
        else Throw (Error (service_not_configured None
                             (Js.join ", " (Js.Object_keys svcs)))))).
  { rewrite (createRequest_unfold E _ svcs Hs). unfold resolved.
    rewrite Hreg. reflexivity. }
  split; [reflexivity|]. split; [exact Hnone|].
  intros Hk. rewrite Hnone. unfold Js.get.
  by rewrite (own_None svcs "undefined" Hk).
Qed.

Lemma createRequest_empty_registry_witness :
  createRequest empty_registry_env (Some "")
  = createRequest empty_registry_env None /\
  createRequest empty_registry_env None
  = Throw (Error (service_not_configured (Some "undefined")
                    (Js.join ", " (Js.Object_keys sample_services)))).
Proof.
  destruct (createRequest_empty_registry empty_registry_env sample_services
              eq_refl eq_refl) as (Hempty & _ & Hmissing).
  split; [exact Hempty|]. apply Hmissing.
  simpl. intros [H | [H | []]]; discriminate H.
Defined.

(** X13: when no identifier is passed and the first entry of the registry
    names a service that the configuration lacks, the error names that
    registry default. *)
Theorem createRequest_default_not_configured (E : Env)
    (svcs : Js.props Js.value) (k d : string)
    (rest : Js.props string) :
  TEMPLATE_CONFIG_services E = (k, d) :: rest ->
  services (getConfig E) = Some svcs ->
  d <> "" ->
  ~ In d (Js.Object_keys svcs) ->
  ~ In d (Js.Object_keys Js.Object_prototype) ->
  createRequest E None
  = Throw (Error (service_not_configured (Some d)
                    (Js.join ", " (Js.Object_keys svcs)))).
Proof.
  intros Hreg Hs Hd Hown Hproto.
  rewrite (createRequest_unfold E _ svcs Hs). unfold resolved.
  rewrite Hreg. simpl. unfold Js.get.
  by rewrite (own_None svcs d Hown), (own_None _ d Hproto).
Qed.

Lemma createRequest_default_not_configured_witness :
  createRequest payments_only_env None
  = Throw (Error (service_not_configured (Some "MAIN")
                    (Js.join ", " (Js.Object_keys payments_only)))).
Proof.
  apply (createRequest_default_not_configured payments_only_env
           payments_only "MAIN" "MAIN" [ ("PAYMENTS", "PAYMENTS") ]);
    [ reflexivity | reflexivity | discriminate | | ];
    simpl; intros H; repeat destruct H as [H | H]; discriminate || done.
Defined.

(** X14: the request a builder returns for a non-empty service identifier
    configured with a non-empty base URL targets exactly that URL, with the
    method of the builder, the path given and the body given (none for GET
    and DELETE), whatever the token. *)
Theorem builders_target_configured_url (E : Env) (svcs : Js.props Js.value)
    (s u path : string) (body : Js.value) (token : option string) :
  services (getConfig E) = Some svcs ->
  Js.own svcs s = Some (Js.str u) ->
  s <> "" -> u <> "" ->
  builds (buildGetRequest E path token (Some s))
    GET path (Js.str u) Js.undefined /\
  builds (buildPostRequest E path body token (Some s))
    POST path (Js.str u) body /\
  builds (buildPutRequest E path body token (Some s))
    PUT path (Js.str u) body /\
  builds (buildPatchRequest E path body token (Some s))
    PATCH path (Js.str u) body /\
  builds (buildDeleteRequest E path token (Some s))
    DELETE path (Js.str u) Js.undefined.
Proof.
  intros Hs Hown Hne Hu.
  assert (Hc : createRequest E (Some s) = Return (request (Js.str u))).
  { rewrite (createRequest_unfold E _ svcs Hs). unfold resolved.
    rewrite (truthy_string_Some s Hne). cbv zeta.
    unfold Js.to_string, Js.get. by rewrite Hown, (truthy_str u Hu). }
  unfold builds.
  repeat split; intros st; run_builder Hc;
    destruct (Js.truthy_string token); finish_builder;
    eexists; (split; [reflexivity | done]).
Qed.

Lemma builders_target_configured_url_witness :
  builds (buildGetRequest sample_env "/users" (Some "tok") (Some "PAYMENTS"))
    GET "/users" (Js.str "http://localhost:3001") Js.undefined /\
  builds (buildPostRequest sample_env "/users" sample_body (Some "tok")
            (Some "PAYMENTS"))
    POST "/users" (Js.str "http://localhost:3001") sample_body /\
  builds (buildPutRequest sample_env "/users" sample_body (Some "tok")
            (Some "PAYMENTS"))
    PUT "/users" (Js.str "http://localhost:3001") sample_body /\
  builds (buildPatchRequest sample_env "/users" sample_body (Some "tok")
            (Some "PAYMENTS"))
    PATCH "/users" (Js.str "http://localhost:3001") sample_body /\
  builds (buildDeleteRequest sample_env "/users" (Some "tok")
            (Some "PAYMENTS"))
    DELETE "/users" (Js.str "http://localhost:3001") Js.undefined.
Proof.
  apply (builders_target_configured_url sample_env sample_services
           "PAYMENTS" "http://localhost:3001" "/users" sample_body
           (Some "tok"));
    [reflexivity | reflexivity | discriminate | discriminate].
Defined.

(** ** How the decorators compose *)

Section Maps.
Context {V : Type}.

Lemma foldl_insert_notin (kvs : Js.props V) (m : gmap string V)
    (k : string) :
  k ∉ kvs.*1 ->
  foldl (fun q kv => <[kv.1 := kv.2]> q) m kvs !! k = m !! k.
Proof.
  revert m. induction kvs as [|[k' v'] kvs IH]; intros m Hk; [done|].
  apply not_elem_of_cons in Hk as [Hne Hk]. simpl.
  rewrite IH by done. by rewrite lookup_insert_ne.
Qed.

Lemma foldl_insert_in (kvs : Js.props V) (m : gmap string V)
    (k : string) (v : V) :
  NoDup kvs.*1 -> (k, v) ∈ kvs ->
  foldl (fun q kv => <[kv.1 := kv.2]> q) m kvs !! k = Some v.
Proof.
  revert m. induction kvs as [|[k' v'] kvs IH]; intros m Hnd Hin.
  - by apply elem_of_nil in Hin.
  - apply NoDup_cons in Hnd as [Hk' Hnd]. simpl.
    apply elem_of_cons in Hin as [[= -> ->] | Hin].
    + rewrite foldl_insert_notin by done. apply lookup_insert_eq.
    + by apply IH.
Qed.

(** A write that a later write of the batch repeats leaves no trace. *)
Lemma foldl_insert_overwrites (kvs : Js.props V) (m : gmap string V)
    (k : string) (v : V) :
  k ∈ kvs.*1 ->
  foldl (fun q kv => <[kv.1 := kv.2]> q) (<[k := v]> m) kvs
  = foldl (fun q kv => <[kv.1 := kv.2]> q) m kvs.
Proof.
  revert m. induction kvs as [|[k' v'] kvs IH]; intros m Hk.
  - by apply elem_of_nil in Hk.
  - simpl. destruct (decide (k' = k)) as [-> | Hne].
    + by rewrite insert_insert_eq.
    + apply elem_of_cons in Hk as [Hk | Hk]; [by subst|].
      rewrite insert_insert_ne by done. by apply IH.
Qed.

(** A write to a name the batch does not mention commutes with it. *)
Lemma foldl_insert_commute (kvs : Js.props V) (m : gmap string V)
    (k : string) (v : V) :
  k ∉ kvs.*1 ->
  foldl (fun q kv => <[kv.1 := kv.2]> q) (<[k := v]> m) kvs
  = <[k := v]> (foldl (fun q kv => <[kv.1 := kv.2]> q) m kvs).
Proof.
  revert m. induction kvs as [|[k' v'] kvs IH]; intros m Hk; [done|].
  apply not_elem_of_cons in Hk as [Hne Hk]. simpl.
  rewrite insert_insert_ne by done. by apply IH.
Qed.

End Maps.

(** Two decorators run one after the other on the same request. *)
Lemma alter_twice (d1 d2 : ref -> M ref) (f g : Test -> Test) (req : ref)
    (st : Store) :
  (forall s, d1 req s = (Return req, alter f req s)) ->
  (forall s, d2 req s = (Return req, alter g req s)) ->
  (r ← d1 req; d2 r) st = (Return req, alter (g ∘ f) req st).
Proof.
  intros H1 H2. unfold mbind, M_bind, bind. rewrite H1, H2.
  by rewrite list_alter_alter_eq.
Qed.

(** X15: [withHeaders] changes no header other than those its mapping
    names, and no query parameter: a header whose name is not a key of
    the mapping, in whatever letter case, reads after the call as it did
    before, on the wire and for [req.get]. *)
Theorem withHeaders_keeps_other_headers (st : Store) (req : ref)
    (test : Test) (headers : Js.props string) (k : string) :
  st !! req = Some test ->
  ~ In (Js.toLowerCase k) (Js.toLowerCase <$> Js.Object_keys headers) ->
  exists test' : Test,
    withHeaders req headers st = (Return req, <[req := test']> st) /\
    header test' !! k = header test !! k /\
    get_header test' k = get_header test k /\
    qs test' = qs test.
Proof.
  unfold Js.Object_keys. intros Hreq Hk.
  assert (Hk' : Js.toLowerCase k ∉ Js.toLowerCase <$> headers.*1)
    by (intros Hin; apply Hk; by apply list_elem_of_In).
  exists (with_headers headers test). unfold get_header.
  rewrite with_headers_fields. simpl. split; [|split; [|split]].
  - rewrite withHeaders_alter. f_equal.
    rewrite <- with_headers_fields. by apply alter_lookup_insert.
  - apply set_all_notin. by apply lower_notin.
  - apply set_all_notin. by rewrite lower_keys_keys.
  - reflexivity.
Qed.

Lemma withHeaders_keeps_other_headers_witness :
  exists test' : Test,
    withHeaders 0 [ ("A", "1"); ("B", "2") ] sample_store
    = (Return 0, <[0 := test']> sample_store) /\
    header test' !! "Authorization" = header sample_Test !! "Authorization"
    /\ get_header test' "Authorization"
       = get_header sample_Test "Authorization"
    /\ qs test' = qs sample_Test.
Proof.
  apply (withHeaders_keeps_other_headers sample_store 0 sample_Test
           [ ("A", "1"); ("B", "2") ] "Authorization"); [reflexivity|].
  simpl. intros [H | [H | []]]; discriminate H.
Defined.

(** X16: [withAuth] and [withApiKey] commute as long as the API key does
    not go into the header [Authorization], in whatever letter case; in
    particular they commute when the header name is left to its
    default. *)
Theorem withAuth_withApiKey_commute (req : ref) (token apiKey : string)
    (headerName : option string) (st : Store) :
  Js.toLowerCase (default "x-api-key" headerName) <> "authorization" ->
  (r ← withAuth req token; withApiKey r apiKey headerName) st
  = (r ← withApiKey req apiKey headerName; withAuth r token) st.
Proof.
  intros Hne.
  rewrite (alter_twice (fun r => withAuth r token)
             (fun r => withApiKey r apiKey headerName) _ _ req st
             (fun _ => eq_refl) (fun _ => eq_refl)).
  rewrite (alter_twice (fun r => withApiKey r apiKey headerName)
             (fun r => withAuth r token) _ _ req st
             (fun _ => eq_refl) (fun _ => eq_refl)).
  f_equal. apply list_alter_ext; [|done]. intros t _.
  unfold compose, with_header. simpl. f_equal.
  - apply insert_insert_ne. intros Heq. apply Hne. by rewrite Heq.
  - by apply insert_insert_ne.
Qed.

Lemma withAuth_withApiKey_commute_witness :
  (r ← withAuth 0 "tok"; withApiKey r "k1" None) sample_store
  = (r ← withApiKey 0 "k1" None; withAuth r "tok") sample_store.
Proof.
  apply (withAuth_withApiKey_commute 0 "tok" "k1" None sample_store).
  discriminate.
Defined.

(** A header name in another letter case is the same header for the
    client: the two orders then leave different requests. *)
Example withAuth_withApiKey_other_case :
  (r ← withAuth 0 "tok"; withApiKey r "k1" (Some "authorization"))
    sample_store
  <> (r ← withApiKey 0 "k1" (Some "authorization"); withAuth r "tok")
       sample_store.
Proof.
  intros H.
  apply (f_equal (fun r => r.2 !! 0 ≫= fun t => get_header t "Authorization"))
    in H.
  vm_compute in H. discriminate H.
Qed.

(** X17: an API key written to the header [Authorization] and a bearer
    token compete for the same header: whichever decorator runs last
    decides it, and the result is as if the first had not run. *)
Theorem withAuth_withApiKey_same_header (req : ref) (token apiKey : string)
    (st : Store) :
  (r ← withAuth req token; withApiKey r apiKey (Some "Authorization")) st
  = withApiKey req apiKey (Some "Authorization") st /\
  (r ← withApiKey req apiKey (Some "Authorization"); withAuth r token) st
  = withAuth req token st.
Proof.
  split.
  - rewrite (alter_twice (fun r => withAuth r token)
               (fun r => withApiKey r apiKey (Some "Authorization")) _ _
               req st (fun _ => eq_refl) (fun _ => eq_refl)).
    unfold withApiKey, set. f_equal. apply list_alter_ext; [|done].
    intros t _. unfold compose, with_header. simpl.
    f_equal; apply insert_insert_eq.
  - rewrite (alter_twice
               (fun r => withApiKey r apiKey (Some "Authorization"))
               (fun r => withAuth r token) _ _
               req st (fun _ => eq_refl) (fun _ => eq_refl)).
    unfold withAuth, set. f_equal. apply list_alter_ext; [|done].
    intros t _. unfold compose, with_header. simpl.
    f_equal; apply insert_insert_eq.
Qed.

(** X18: when the mapping given to [withHeaders] has no [Authorization]
    key, in whatever letter case, [withHeaders] and [withAuth] commute. *)
Theorem withAuth_withHeaders_commute (req : ref) (token : string)
    (headers : Js.props string) (st : Store) :
  ~ In "authorization" (Js.toLowerCase <$> Js.Object_keys headers) ->
  (r ← withAuth req token; withHeaders r headers) st
  = (r ← withHeaders req headers; withAuth r token) st.
Proof.
  unfold Js.Object_keys. intros Hk.
  assert (Hk' : Js.toLowerCase "Authorization"
                ∉ Js.toLowerCase <$> headers.*1)
    by (intros Hin; apply Hk; by apply list_elem_of_In).
  rewrite (alter_twice (fun r => withAuth r token)
             (fun r => withHeaders r headers) _ _ req st
             (fun _ => eq_refl) (fun s => withHeaders_alter req headers s)).
  rewrite (alter_twice (fun r => withHeaders r headers)
             (fun r => withAuth r token) _ _ req st
             (fun s => withHeaders_alter req headers s) (fun _ => eq_refl)).
  f_equal. apply list_alter_ext; [|done]. intros t _.
  unfold compose. rewrite !with_headers_fields.
  unfold with_header. simpl. f_equal.
  - apply foldl_insert_commute. by apply lower_notin.
  - apply foldl_insert_commute. by rewrite lower_keys_keys.
Qed.

Lemma withAuth_withHeaders_commute_witness :
  (r ← withAuth 0 "tok"; withHeaders r [ ("A", "1"); ("B", "2") ])
    sample_store
  = (r ← withHeaders 0 [ ("A", "1"); ("B", "2") ]; withAuth r "tok")
      sample_store.
Proof.
  apply (withAuth_withHeaders_commute 0 "tok" [ ("A", "1"); ("B", "2") ]
           sample_store).
  simpl. intros [H | [H | []]]; discriminate H.
Defined.

(** X19: when the mapping given to [withHeaders] does have an
    [Authorization] key, a bearer token set before is lost without trace
    ([withAuth] then [withHeaders] is [withHeaders] alone), while a
    [withAuth] that comes after [withHeaders] sets its bearer token. *)
Theorem withHeaders_overrides_withAuth (st : Store) (req : ref)
    (test : Test) (token : string) (headers : Js.props string) :
  st !! req = Some test ->
  In "Authorization" (Js.Object_keys headers) ->
  (r ← withAuth req token; withHeaders r headers) st
  = withHeaders req headers st /\
  (r ← withHeaders req headers; withAuth r token) st
  = (Return req,
     <[req := with_header "Authorization" ("Bearer " +:+ token)
                (with_headers headers test)]> st) /\
  header (with_header "Authorization" ("Bearer " +:+ token)
            (with_headers headers test)) !! "Authorization"
  = Some ("Bearer " +:+ token).
Proof.
  intros Hreq Hk. apply list_elem_of_In in Hk. split; [|split].
  - rewrite (alter_twice (fun r => withAuth r token)
               (fun r => withHeaders r headers) _ _ req st
               (fun _ => eq_refl) (fun s => withHeaders_alter req headers s)).
    rewrite withHeaders_alter. f_equal. apply list_alter_ext; [|done].
    intros t _. unfold compose. rewrite !with_headers_fields.
    unfold with_header. cbn [method url app header _header qs data].
    f_equal.
    + by apply foldl_insert_overwrites.
    + apply foldl_insert_overwrites. rewrite lower_keys_keys.
      by apply list_elem_of_fmap_2.
  - rewrite (alter_twice (fun r => withHeaders r headers)
               (fun r => withAuth r token) _ _ req st
               (fun s => withHeaders_alter req headers s) (fun _ => eq_refl)).
    f_equal.
    exact (alter_lookup_insert
             (with_header "Authorization" ("Bearer " +:+ token)
              ∘ with_headers headers) st req test Hreq).
  - simpl. apply lookup_insert_eq.
Qed.

Lemma withHeaders_overrides_withAuth_witness :
  (r ← withAuth 0 "tok"; withHeaders r [ ("Authorization", "Basic abc") ])
    sample_store
  = withHeaders 0 [ ("Authorization", "Basic abc") ] sample_store /\
  (r ← withHeaders 0 [ ("Authorization", "Basic abc") ]; withAuth r "tok")
    sample_store
  = (Return 0,
     <[0 := with_header "Authorization" ("Bearer " +:+ "tok")
              (with_headers [ ("Authorization", "Basic abc") ]
                 sample_Test)]> sample_store) /\
  header (with_header "Authorization" ("Bearer " +:+ "tok")
            (with_headers [ ("Authorization", "Basic abc") ] sample_Test))
    !! "Authorization"
  = Some ("Bearer " +:+ "tok").
Proof.
  apply (withHeaders_overrides_withAuth sample_store 0 sample_Test "tok"
           [ ("Authorization", "Basic abc") ]); [reflexivity|].
  left. reflexivity.
Defined.

(** ** Query parameters *)

Lemma qs_with_query (params : Js.props Js.value) (t : Test) :
  qs (with_query params t) = set_params params (qs t).
Proof. reflexivity. Qed.

(** X20: [withQueryParams(req, params)] returns [req]; every parameter of
    the mapping is then on the request with its value, a parameter the
    mapping does not name is as it was before, and the headers are not
    touched. *)
Theorem withQueryParams_sets_params (st : Store) (req : ref) (test : Test)
    (params : Js.props Js.value) :
  st !! req = Some test ->
  NoDup (Js.Object_keys params) ->
  exists test' : Test,
    withQueryParams req params st = (Return req, <[req := test']> st) /\
    (forall k v, In (k, v) (Js.Object_entries params) ->
                 qs test' !! k = Some v) /\
    (forall k, ~ In k (Js.Object_keys params) ->
               qs test' !! k = qs test !! k) /\
    header test' = header test.
Proof.
  unfold Js.Object_keys, Js.Object_entries. intros Hreq Hnd.
  exists (with_query params test). split; [|split; [|split]].
  - unfold withQueryParams, query. f_equal. by apply alter_lookup_insert.
  - intros k v Hin. rewrite qs_with_query.
    apply foldl_insert_in; [done | by apply list_elem_of_In].
  - intros k Hk. rewrite qs_with_query. apply foldl_insert_notin.
    intros Hin. apply Hk. by apply list_elem_of_In.
  - reflexivity.
Qed.

Lemma withQueryParams_sets_params_witness :
  exists test' : Test,
    withQueryParams 0 [ ("page", Js.number 2); ("q", Js.str "a") ]
      sample_store
    = (Return 0, <[0 := test']> sample_store) /\
    (forall k v,
       In (k, v) (Js.Object_entries
                    [ ("page", Js.number 2); ("q", Js.str "a") ]) ->
       qs test' !! k = Some v) /\
    (forall k,
       ~ In k (Js.Object_keys [ ("page", Js.number 2); ("q", Js.str "a") ]) ->
       qs test' !! k = qs sample_Test !! k) /\
    header test' = header sample_Test.
Proof.
  apply (withQueryParams_sets_params sample_store 0 sample_Test
           [ ("page", Js.number 2); ("q", Js.str "a") ]); [reflexivity|].
  apply NoDup_cons. split; [|apply NoDup_singleton].
  intros H. apply list_elem_of_singleton in H. discriminate H.
Defined.

(** X21: two [withQueryParams] calls on the same request merge their
    mappings: every parameter of the second call is present with its
    value, and so is every parameter of the first call that the second
    does not name. *)
Theorem withQueryParams_merge (st : Store) (req : ref) (test : Test)
    (first second : Js.props Js.value) :
  st !! req = Some test ->
  NoDup (Js.Object_keys first) ->
  NoDup (Js.Object_keys second) ->
  exists test' : Test,
    (r ← withQueryParams req first; withQueryParams r second) st
    = (Return req, <[req := test']> st) /\
    (forall k v, In (k, v) second -> qs test' !! k = Some v) /\
    (forall k v, In (k, v) first -> ~ In k (Js.Object_keys second) ->
                 qs test' !! k = Some v).
Proof.
  unfold Js.Object_keys. intros Hreq Hnd1 Hnd2.
  exists (with_query second (with_query first test)). split; [|split].
  - rewrite (alter_twice (fun r => withQueryParams r first)
               (fun r => withQueryParams r second) _ _ req st
               (fun _ => eq_refl) (fun _ => eq_refl)).
    f_equal.
    exact (alter_lookup_insert (with_query second ∘ with_query first)
             st req test Hreq).
  - intros k v Hin. rewrite qs_with_query.
    apply foldl_insert_in; [done | by apply list_elem_of_In].
  - intros k v Hin Hk. rewrite !qs_with_query.
    unfold set_params at 1. rewrite foldl_insert_notin.
    + apply foldl_insert_in; [done | by apply list_elem_of_In].
    + intros Hin'. apply Hk. by apply list_elem_of_In.
Qed.

Lemma withQueryParams_merge_witness :
  exists test' : Test,
    (r ← withQueryParams 0 [ ("page", Js.number 1); ("q", Js.str "a") ];
     withQueryParams r [ ("page", Js.number 2) ]) sample_store
    = (Return 0, <[0 := test']> sample_store) /\
    (forall k v, In (k, v) [ ("page", Js.number 2) ] ->
                 qs test' !! k = Some v) /\
    (forall k v,
       In (k, v) [ ("page", Js.number 1); ("q", Js.str "a") ] ->
       ~ In k (Js.Object_keys [ ("page", Js.number 2) ]) ->
       qs test' !! k = Some v).
Proof.
  apply (withQueryParams_merge sample_store 0 sample_Test
           [ ("page", Js.number 1); ("q", Js.str "a") ]
           [ ("page", Js.number 2) ]); [reflexivity | | ].
  - apply NoDup_cons. split; [|apply NoDup_singleton].
    intros H. apply list_elem_of_singleton in H. discriminate H.
  - apply NoDup_singleton.
Defined.

(** X22: query parameters and headers do not interfere:
    [withQueryParams] commutes with [withAuth], with [withApiKey] and
    with [withHeaders]. *)
Theorem withQueryParams_commutes (req : ref) (params : Js.props Js.value)
    (token apiKey : string) (headerName : option string)
    (headers : Js.props string) (st : Store) :
  (r ← withQueryParams req params; withAuth r token) st
  = (r ← withAuth req token; withQueryParams r params) st /\
  (r ← withQueryParams req params; withApiKey r apiKey headerName) st
  = (r ← withApiKey req apiKey headerName; withQueryParams r params) st /\
  (r ← withQueryParams req params; withHeaders r headers) st
  = (r ← withHeaders req headers; withQueryParams r params) st.
Proof.
  split; [|split].
  - rewrite (alter_twice (fun r => withQueryParams r params)
               (fun r => withAuth r token) _ _ req st
               (fun _ => eq_refl) (fun _ => eq_refl)).
    by rewrite (alter_twice (fun r => withAuth r token)
                  (fun r => withQueryParams r params) _ _ req st
                  (fun _ => eq_refl) (fun _ => eq_refl)).
  - rewrite (alter_twice (fun r => withQueryParams r params)
               (fun r => withApiKey r apiKey headerName) _ _ req st
               (fun _ => eq_refl) (fun _ => eq_refl)).
    by rewrite (alter_twice (fun r => withApiKey r apiKey headerName)
                  (fun r => withQueryParams r params) _ _ req st
                  (fun _ => eq_refl) (fun _ => eq_refl)).
  - rewrite (alter_twice (fun r => withQueryParams r params)
               (fun r => withHeaders r headers) _ _ req st
               (fun _ => eq_refl)
               (fun s => withHeaders_alter req headers s)).
    rewrite (alter_twice (fun r => withHeaders r headers)
               (fun r => withQueryParams r params) _ _ req st
               (fun s => withHeaders_alter req headers s)
               (fun _ => eq_refl)).
    f_equal. apply list_alter_ext; [|done]. intros t _.
    unfold compose. by rewrite !with_headers_fields.
Qed.

(** ** The token of a builder *)

(** X23: in every builder the token acts through [withAuth] alone and
    last: a call with a non-empty token is the call without token followed
    by [withAuth] on its result (also when the factory throws, in which
    case both throw), and an empty token is the same as none. *)
Theorem builders_token_is_withAuth (E : Env) (path : string)
    (body : Js.value) (token : string) (svc : option string) (st : Store) :
  token <> "" ->
  (buildGetRequest E path (Some token) svc st
   = (r ← buildGetRequest E path None svc; withAuth r token) st /\
   buildGetRequest E path (Some "") svc st
   = buildGetRequest E path None svc st) /\
  (buildPostRequest E path body (Some token) svc st
   = (r ← buildPostRequest E path body None svc; withAuth r token) st /\
   buildPostRequest E path body (Some "") svc st
   = buildPostRequest E path body None svc st) /\
  (buildPutRequest E path body (Some token) svc st
   = (r ← buildPutRequest E path body None svc; withAuth r token) st /\
   buildPutRequest E path body (Some "") svc st
   = buildPutRequest E path body None svc st) /\
  (buildPatchRequest E path body (Some token) svc st
   = (r ← buildPatchRequest E path body None svc; withAuth r token) st /\
   buildPatchRequest E path body (Some "") svc st
   = buildPatchRequest E path body None svc st) /\
  (buildDeleteRequest E path (Some token) svc st
   = (r ← buildDeleteRequest E path None svc; withAuth r token) st /\
   buildDeleteRequest E path (Some "") svc st
   = buildDeleteRequest E path None svc st).
Proof.
  intros Ht. open_builders. rewrite (truthy_string_Some token Ht).
  destruct (createRequest E svc) as [a | e];
    [destruct (addressable (agent_app a))|];
    repeat split; reflexivity.
Qed.

Lemma builders_token_is_withAuth_witness :
  buildGetRequest sample_env "/users" (Some "tok") None []
  = (r ← buildGetRequest sample_env "/users" None None; withAuth r "tok") []
  /\
  buildDeleteRequest sample_env "/users/1" (Some "") (Some "BILLING") []
  = buildDeleteRequest sample_env "/users/1" None (Some "BILLING") [].
Proof.
  split.
  - apply (builders_token_is_withAuth sample_env "/users" sample_body "tok"
             None []). discriminate.
  - apply (builders_token_is_withAuth sample_env "/users/1" sample_body
             "tok" (Some "BILLING") []). discriminate.
Defined.

(** ** The client at work in the builders *)

(** The identifier [__proto__] passes the factory, which reads the
    prototype object under it, and the client then refuses the target. *)
Example buildGetRequest_prototype_target :
  createRequest sample_env (Some "__proto__")
  = Return (request (Js.object [])) /\
  buildGetRequest sample_env "/users" None (Some "__proto__") sample_store
  = (Throw TypeError, sample_store).
Proof. split; reflexivity. Qed.

(** An object body is sent as JSON, a string body as a form, and a
    builder without body sets no content type. *)
Example buildPostRequest_content_type :
  content_type sample_body = [ ("Content-Type", "application/json") ] /\
  get_header
    (built POST (Js.str "http://localhost:3000") "/users" sample_body
       (content_type sample_body ++ bearer "tok")%list) "content-type"
  = Some "application/json" /\
  header
    (built POST (Js.str "http://localhost:3000") "/users" (Js.str "a=1")
       (content_type (Js.str "a=1"))) !! "Content-Type"
  = Some "application/x-www-form-urlencoded" /\
  header
    (built POST (Js.str "http://localhost:3000") "/users" (Js.number 1)
       (content_type (Js.number 1))) = ∅.
Proof. repeat split; vm_compute; reflexivity. Qed.

Example toLowerCase_sample :
  Js.toLowerCase "Content-Type" = "content-type" /\
  Js.toLowerCase "X-API-KEY" = "x-api-key" /\
  Js.toLowerCase "x-api-key" = "x-api-key".
Proof. repeat split; reflexivity. Qed.
